(** * PSL_recognition: [src/modules/utils.py]

    A shallow embedding of the image helpers of [utils.py] and the
    properties its specification states about them.

    The module is a thin layer over three external libraries: OpenCV
    ([cv2]), NumPy ([np]) and MediaPipe ([mp]).  The embedding keeps that
    shape:

    - Python values the helpers dispatch on are a small tagged union
      ([pyobj]); arrays are [ndarray]s (a shape and row-major data);
    - pure array operations whose meaning the properties depend on
      ([np.flip], [ndarray.shape], [int(a / b)]) are defined here;
    - calls into [cv2] and [mp] go through the interface [Externals]; the
      few facts about them that the properties need are collected in
      [LibContract] and [DetectorContract];
    - functions that touch the file system or a capture device run in a
      state-and-exception monad [M] whose state is the outside world plus
      the log of I/O calls issued so far. *)

From Stdlib Require Import ZArith Lia String.
From Stdlib Require Import Floats.SpecFloat.
From stdpp Require Import base option list strings gmap.

Local Open Scope Z_scope.

(** ** Exceptions and outcomes *)

(** Modelled from the spec: the exception classes of
    [src/modules/custom_exceptions.py], whose declarations are not part of
    the sources at hand.  The names are those [utils.py] imports; the spec
    lists them as the domain-specific error kinds "invalid image path,
    null/missing image, invalid video path, invalid camera index". *)
Inductive domain_error : Type :=
| PathToImageIsIncorrectError
| PathToVideoIsIncorrectError
| ImageNotExistsError
| CameraIndexIsIncorrect.

(** Exceptions that originate inside an external library. *)
Inductive lib_error : Type :=
| Cv2Error          (* cv2.error *)
| AxisError         (* numpy.exceptions.AxisError *)
| MediapipeError.   (* anything raised by mediapipe *)

Inductive exn : Type :=
| Domain (d : domain_error)
| TypeError (msg : string)
| ValueError (msg : string)
| IndexError (msg : string)
| ZeroDivisionError
| OverflowError
| External (e : lib_error).

(** What a call does: it returns a value or it raises. *)
Inductive outcome (A : Type) : Type :=
| Return (a : A)
| Raise (e : exn).
Arguments Return {A} a.
Arguments Raise {A} e.

Definition outcome_bind {A B} (o : outcome A) (k : A -> outcome B) : outcome B :=
  match o with
  | Return a => k a
  | Raise e => Raise e
  end.

Definition outcome_map {A B} (f : A -> B) (o : outcome A) : outcome B :=
  outcome_bind o (fun a => Return (f a)).

(** The result of a call into an external library: a value, or an
    exception of that library.  The libraries know nothing of this
    repository's exception classes, so they cannot raise a
    [domain_error]. *)
Definition libcall (A : Type) : Type := lib_error + A.

Definition from_lib {A} (r : libcall A) : outcome A :=
  match r with
  | inr a => Return a
  | inl e => Raise (External e)
  end.

Declare Scope outcome_scope.
Delimit Scope outcome_scope with outcome.
Notation "x <- c ;; k" := (outcome_bind c (fun x => k))
  (at level 100, c at next level, right associativity) : outcome_scope.

(** ** Python numbers: [int(a / b)] on integers

    [a / b] on two Python ints is true division: the binary64 float
    nearest to the exact quotient (CPython's [long_true_divide] rounds
    correctly whatever the size of the operands), [ZeroDivisionError]
    for [b = 0] and [OverflowError] when the quotient is beyond the
    floats.  [int(x)] on a float truncates towards zero.  Floats are the
    [spec_float]s of the standard library at precision 53, [emax] 1024. *)
Module PyNum.

Definition float : Type := spec_float.

Definition prec : Z := 53.
Definition emax : Z := 1024.

Definition truediv (a b : Z) : outcome float :=
  if b =? 0 then Raise ZeroDivisionError
  else if a =? 0 then Return (S754_zero (b <? 0))
  else
    let '(mz, ez, lz) := SFdiv_core_binary prec emax (Z.abs a) 0 (Z.abs b) 0 in
    match binary_round_aux prec emax (xorb (a <? 0) (b <? 0)) mz ez lz with
    | S754_infinity _ => Raise OverflowError
    | x => Return x
    end.

Definition int_of_float (x : float) : outcome Z :=
  match x with
  | S754_zero _ => Return 0
  | S754_finite s m e =>
      let v := if 0 <=? e then Z.shiftl (Zpos m) e else Z.shiftr (Zpos m) (- e) in
      Return (if s then - v else v)
  | S754_infinity _ => Raise OverflowError
  | S754_nan => Raise (ValueError "cannot convert float NaN to integer")
  end.

(** [int(a / b)] *)
Definition int_truediv (a b : Z) : outcome Z :=
  (x <- truediv a b ;; int_of_float x)%outcome.

(** The float [0.5], the default of both confidence thresholds. *)
Definition half : float := S754_finite false 4503599627370496 (-53).

End PyNum.

(** ** Arrays *)

(** A NumPy array: its [shape] and its elements in row-major (C) order.
    NumPy keeps [length data = product of shape] ([ndarray_wf]). *)
Record ndarray : Type := mk_ndarray {
  shape : list nat;
  data : list Z
}.

Definition size_of (sh : list nat) : nat := foldr Nat.mul 1%nat sh.

Definition ndarray_wf (a : ndarray) : Prop := length (data a) = size_of (shape a).

Definition ndim (a : ndarray) : nat := length (shape a).

(** Modelled from the spec: the alias [Image] of
    [src/modules/custom_types.py], not part of the sources at hand.  The
    spec's data model: "a two- or three-dimensional numeric array
    representing pixel data (height x width x channels)". *)
Definition is_image (a : ndarray) : Prop :=
  ndarray_wf a /\ (ndim a = 2%nat \/ ndim a = 3%nat).

(** [a.shape[i]] for a literal index [i >= 0]. *)
Definition shape_at (a : ndarray) (i : nat) : outcome Z :=
  match shape a !! i with
  | Some d => Return (Z.of_nat d)
  | None => Raise (IndexError "tuple index out of range")
  end.

(** [chunks n k l]: the first [k] consecutive blocks of [n] elements. *)
Fixpoint chunks {A} (n k : nat) (l : list A) : list (list A) :=
  match k with
  | O => []
  | S k' => take n l :: chunks n k' (drop n l)
  end.

(** Reverse the order of the elements along [axis], for data laid out
    according to [sh]. *)
Fixpoint flip_data (sh : list nat) (axis : nat) (l : list Z) : list Z :=
  match sh with
  | [] => l
  | d :: rest =>
      match axis with
      | O => concat (reverse (chunks (size_of rest) d l))
      | S axis' => concat (map (flip_data rest axis') (chunks (size_of rest) d l))
      end
  end.

(** [np.flip(m, axis)] for a non-negative [axis]: same shape, entries
    along [axis] reversed; [AxisError] when the array has no such axis. *)
Definition np_flip (m : ndarray) (axis : nat) : outcome ndarray :=
  if decide (axis < ndim m)%nat
  then Return {| shape := shape m; data := flip_data (shape m) axis (data m) |}
  else Raise (External AxisError).

(** ** Python values and the types of the external libraries *)

(** The values the helpers receive as [source]: they dispatch on
    [isinstance(source, str)], [isinstance(source, np.ndarray)] and
    [source is None]; ints and floats stand for everything else. *)
Inductive pyobj : Type :=
| PyNone
| PyStr (s : string)
| PyInt (n : Z)
| PyFloat (x : PyNum.float)
| PyArray (a : ndarray).

Definition is_str (v : pyobj) : bool :=
  match v with PyStr _ => true | _ => false end.

(** [float | int] parameters (thickness, radius). *)
Inductive number : Type :=
| NInt (n : Z)
| NFloat (x : PyNum.float).

(** cv2 constants used by the module. *)
Inductive interpolation : Type := INTER_NEAREST | INTER_LINEAR | INTER_CUBIC | INTER_AREA.
Inductive color_code : Type := COLOR_BGR2RGB.

(** mediapipe: a landmark list, the fields of the holistic result that
    the module reads, the connection tables and [DrawingSpec]. *)
Record landmark : Type := mk_landmark {
  lm_x : PyNum.float;
  lm_y : PyNum.float;
  lm_z : PyNum.float
}.

Definition landmark_list : Type := list landmark.

Record results : Type := mk_results {
  pose_landmarks : option landmark_list;
  left_hand_landmarks : option landmark_list;
  right_hand_landmarks : option landmark_list
}.

Inductive connections : Type := POSE_CONNECTIONS | HAND_CONNECTIONS.

Record DrawingSpec : Type := mk_DrawingSpec {
  color : list Z;
  thickness : number;
  circle_radius : number
}.

(** A [cv2.VideoCapture] object, identified by a handle. *)
Definition capture : Type := nat.

(** ** The outside world *)

(** The calls on the file system and on capture devices that the
    [cv2] API offers to this module.  [EvRelease] is [cap.release()]. *)
Inductive event : Type :=
| EvImread (path : string)
| EvImwrite (path : string) (img : ndarray)
| EvVideoCapture (source : pyobj)
| EvIsOpened (cap : capture)
| EvRead (cap : capture)
| EvRelease (cap : capture).

(** The external libraries over a [world] (file system, devices).

    - [cv2.imread] returns the decoded array or [None];
    - [cv2.imwrite] changes the world and returns its success flag, or
      raises when no writer takes the path or the image;
    - [cv2.resize], [cv2.cvtColor] are functions of their arguments;
    - [cv2.VideoCapture(source)] yields a capture object, opened or not;
      [cap.read()] yields [(success, frame)] and advances the capture;
    - [holistic_process mdc mtc img] is
      [Holistic(min_detection_confidence=mdc,
      min_tracking_confidence=mtc).process(img)] on a fresh [Holistic];
    - [draw_landmarks] yields the image after drawing (Python draws in
      place on the array it is given). *)
Class Externals (world : Type) : Type := {
  cv2_imread : string -> world -> option ndarray;
  cv2_imwrite : string -> ndarray -> world -> libcall bool * world;
  cv2_resize : ndarray -> Z * Z -> interpolation -> libcall ndarray;
  cv2_cvtColor : option ndarray -> color_code -> libcall ndarray;
  cv2_VideoCapture : pyobj -> world -> libcall capture * world;
  cap_isOpened : capture -> world -> bool;
  cap_read : capture -> world -> (bool * option ndarray) * world;
  holistic_process : PyNum.float -> PyNum.float -> ndarray -> libcall results;
  draw_landmarks :
    ndarray -> option landmark_list -> connections -> DrawingSpec -> DrawingSpec ->
    libcall ndarray
}.

(** What the properties below rely on from the libraries' documented
    behaviour:
    - [cv2.resize] with an explicit [dsize] (no scale factors) rejects a
      [dsize] with a non-positive side, and a result it returns has
      [dsize = (width, height)], that is shape [(height, width, ...)];
    - [draw_landmarks] returns at once, image untouched, when the
      landmark list is [None] ([if not landmark_list: return]). *)
Class LibContract {world : Type} (E : Externals world) : Prop := {
  resize_rejects_empty_dsize :
    forall src w h i, w <= 0 \/ h <= 0 -> cv2_resize src (w, h) i = inl Cv2Error;
  resize_result_shape :
    forall src w h i r, cv2_resize src (w, h) i = inr r ->
      take 2 (shape r) = [Z.to_nat h; Z.to_nat w];
  draw_landmarks_none :
    forall img conns s1 s2, draw_landmarks img None conns s1 s2 = inr img
}.

(** What is relied on from the holistic detector: it finds the hands
    from the pose (the hand regions are derived from the pose
    landmarks), so a result without pose landmarks has no hand
    landmarks either. *)
Class DetectorContract {world : Type} (E : Externals world) : Prop := {
  hands_need_pose :
    forall mdc mtc img res, holistic_process mdc mtc img = inr res ->
      pose_landmarks res = None ->
      left_hand_landmarks res = None /\ right_hand_landmarks res = None
}.

(** The state the helpers run in: the world and the log of I/O calls. *)
Record state (world : Type) : Type := mk_state {
  st_world : world;
  st_log : list event
}.
Arguments mk_state {world} _ _.
Arguments st_world {world} _.
Arguments st_log {world} _.

Definition M (world A : Type) : Type := state world -> outcome A * state world.

Definition ret {world A} (a : A) : M world A := fun st => (Return a, st).

Definition raise {world A} (e : exn) : M world A := fun st => (Raise e, st).

Definition bind {world A B} (m : M world A) (k : A -> M world B) : M world B :=
  fun st =>
    match m st with
    | (Return a, st') => k a st'
    | (Raise e, st') => (Raise e, st')
    end.

Definition lift {world A} (o : outcome A) : M world A := fun st => (o, st).

Definition log_event {world} (ev : event) (st : state world) : state world :=
  mk_state (st_world st) (st_log st ++ [ev]).

Declare Scope io_scope.
Delimit Scope io_scope with io.
Notation "x <- c ;; k" := (bind c (fun x => k))
  (at level 100, c at next level, right associativity) : io_scope.
Notation "c ;;; k" := (bind c (fun _ => k))
  (at level 100, k at level 200, right associativity) : io_scope.

(** ** The helpers of [utils.py] *)

Section Utils.
Context {world : Type} {E : Externals world}.

Local Open Scope io_scope.

(** *** I/O calls: each is logged, then answered by the library. *)

Definition imread (path : string) : M world (option ndarray) :=
  fun st => (Return (cv2_imread path (st_world st)), log_event (EvImread path) st).

Definition imwrite (path : string) (img : ndarray) : M world bool :=
  fun st =>
    let '(r, w) := cv2_imwrite path img (st_world st) in
    (from_lib r, mk_state w (st_log st ++ [EvImwrite path img])).

Definition VideoCapture (source : pyobj) : M world capture :=
  fun st =>
    let '(r, w) := cv2_VideoCapture source (st_world st) in
    (from_lib r, mk_state w (st_log st ++ [EvVideoCapture source])).

Definition isOpened (cap : capture) : M world bool :=
  fun st => (Return (cap_isOpened cap (st_world st)), log_event (EvIsOpened cap) st).

Definition read (cap : capture) : M world (bool * option ndarray) :=
  fun st =>
    let '(r, w) := cap_read cap (st_world st) in
    (Return r, mk_state w (st_log st ++ [EvRead cap])).

(** *** [open_img] *)

Definition open_img (source : pyobj) : M world ndarray :=
  match source with
  | PyStr path =>
      img <- imread path ;;
      match img with
      | None => raise (Domain PathToImageIsIncorrectError)
      | Some img => ret img
      end
  | PyArray img => ret img
  | PyNone => raise (Domain ImageNotExistsError)
  | _ => raise (TypeError "Input must be string or Image.")
  end.

(** *** [center_of_img] *)

(** [(h, w) = source.shape[:2]] needs two axes; the tuple
    [w / 2, h / 2] is evaluated left to right. *)
Definition center_of_img (source : pyobj) : M world (PyNum.float * PyNum.float) :=
  source <- open_img source ;;
  match take 2 (shape source) with
  | [h; w] =>
      lift (x <- PyNum.truediv (Z.of_nat w) 2 ;;
            y <- PyNum.truediv (Z.of_nat h) 2 ;;
            Return (x, y))%outcome
  | [_] => raise (ValueError "not enough values to unpack (expected 2, got 1)")
  | _ => raise (ValueError "not enough values to unpack (expected 2, got 0)")
  end.

(** *** [rescale_img] *)

(** [int(img.shape[i] * rescale_factor / 100)] *)
Definition scaled_dim (img : ndarray) (i : nat) (rescale_factor : Z) : outcome Z :=
  (d <- shape_at img i ;; PyNum.int_truediv (d * rescale_factor) 100)%outcome.

Definition rescale_img (source : pyobj) (rescale_factor : Z) : M world ndarray :=
  if rescale_factor <=? 0
  then raise (ValueError "Rescale factor must be positive integer.")
  else
    img <- open_img source ;;
    width <- lift (scaled_dim img 1 rescale_factor) ;;
    height <- lift (scaled_dim img 0 rescale_factor) ;;
    lift (from_lib (cv2_resize img (width, height) INTER_AREA)).

(** *** [detect_and_draw_landmarks] *)

Definition detect_and_draw_landmarks
    (img : ndarray) (min_detection_confidence min_tracking_confidence : PyNum.float)
    (points_color : list Z) (points_thickness points_radius : number)
    (connect_color : list Z) (connect_thickness connect_radius : number)
    : outcome ndarray :=
  (results <- from_lib
      (holistic_process min_detection_confidence min_tracking_confidence img) ;;
   match pose_landmarks results with
   | Some _ =>
       img <- from_lib
         (draw_landmarks img (pose_landmarks results) POSE_CONNECTIONS
            (mk_DrawingSpec points_color points_thickness points_radius)
            (mk_DrawingSpec connect_color connect_thickness connect_radius)) ;;
       img <- from_lib
         (draw_landmarks img (left_hand_landmarks results) HAND_CONNECTIONS
            (mk_DrawingSpec points_color points_thickness points_radius)
            (mk_DrawingSpec connect_color connect_thickness connect_radius)) ;;
       img <- from_lib
         (draw_landmarks img (right_hand_landmarks results) HAND_CONNECTIONS
            (mk_DrawingSpec points_color points_thickness points_radius)
            (mk_DrawingSpec connect_color connect_thickness connect_radius)) ;;
       Return img
   | None => Return img
   end)%outcome.

(** *** [drawing_points_img]

    [window_name], [wait_key] and [destroy_window] only appear in code
    that is commented out. *)
Definition drawing_points_img
    (source : pyobj) (rescale : Z) (window_name : string)
    (min_detection_confidence min_tracking_confidence : PyNum.float)
    (points_color : list Z) (points_thickness points_radius : number)
    (connect_color : list Z) (connect_thickness connect_radius : number)
    (wait_key : Z) (destroy_window : bool) : M world ndarray :=
  img <- open_img source ;;
  img <- rescale_img (PyArray img) rescale ;;
  img_rgb <- lift (from_lib (cv2_cvtColor (Some img) COLOR_BGR2RGB)) ;;
  lift (detect_and_draw_landmarks
          img_rgb min_detection_confidence min_tracking_confidence
          points_color points_thickness points_radius
          connect_color connect_thickness connect_radius).

(** *** [drawing_points_video] *)

(** The local variables of [drawing_points_video] that the loop
    assigns; [None] is "not yet bound". *)
Record locals : Type := mk_locals {
  l_success : option bool;
  l_img : option (option ndarray);
  l_img_rgb : option ndarray
}.

Definition unbound : locals := mk_locals None None None.

(** The [while cap.isOpened()] loop.  [fuel] bounds the number of
    iterations the model follows; the result is [None] when the loop
    is still running after that many.  [detect_and_draw_landmarks]
    draws on the array it is given and returns it, so after the call
    [img] and [img_rgb] are the same drawn array. *)
Fixpoint frame_loop (fuel : nat) (cap : capture)
    (min_detection_confidence min_tracking_confidence : PyNum.float)
    (points_color : list Z) (points_thickness points_radius : number)
    (connect_color : list Z) (connect_thickness connect_radius : number)
    (vars : locals) : M world (option locals) :=
  match fuel with
  | O => ret None
  | S fuel' =>
      opened <- isOpened cap ;;
      if opened then
        r <- read cap ;;
        let '(success, img) := r in
        if negb success then ret (Some (mk_locals (Some success) (Some img) (l_img_rgb vars)))
        else
          img_rgb <- lift (from_lib (cv2_cvtColor img COLOR_BGR2RGB)) ;;
          img' <- lift (detect_and_draw_landmarks
                          img_rgb min_detection_confidence min_tracking_confidence
                          points_color points_thickness points_radius
                          connect_color connect_thickness connect_radius) ;;
          frame_loop fuel' cap min_detection_confidence min_tracking_confidence
            points_color points_thickness points_radius
            connect_color connect_thickness connect_radius
            (mk_locals (Some success) (Some (Some img')) (Some img'))
      else ret (Some vars)
  end.

(** [drawing_points_video] returns [None] ([tt] here) when the loop
    ends; [rescale] and [window_name] are accepted and not used. *)
Definition drawing_points_video (fuel : nat)
    (source : pyobj) (rescale : Z) (window_name : string)
    (min_detection_confidence min_tracking_confidence : PyNum.float)
    (points_color : list Z) (points_thickness points_radius : number)
    (connect_color : list Z) (connect_thickness connect_radius : number)
    : M world (option unit) :=
  cap <- VideoCapture source ;;
  opened <- isOpened cap ;;
  if negb opened then
    if is_str source
    then raise (Domain PathToVideoIsIncorrectError)
    else raise (Domain CameraIndexIsIncorrect)
  else
    vars <- frame_loop fuel cap min_detection_confidence min_tracking_confidence
              points_color points_thickness points_radius
              connect_color connect_thickness connect_radius unbound ;;
    ret (fmap (fun _ => tt) vars).

(** *** [img_mirror] *)

(** [if destination_path:] holds for a string other than [""]; [None]
    (the default) and [""] are false. *)
Definition img_mirror (source : pyobj) (destination_path : option string)
    : M world ndarray :=
  img <- open_img source ;;
  img_mirrored <- lift (np_flip img 1) ;;
  match destination_path with
  | Some p =>
      if negb (String.eqb p "")
      then imwrite p img_mirrored ;;; ret img_mirrored
      else ret img_mirrored
  | None => ret img_mirrored
  end.

End Utils.

(** Default values of the keyword parameters. *)
Definition default_rescale : Z := 100.
Definition default_confidence : PyNum.float := PyNum.half.
Definition default_points_color : list Z := [0; 0; 255].
Definition default_connect_color : list Z := [50; 255; 0].
Definition default_thickness : number := NInt 1.
Definition default_radius : number := NInt 1.

(** ** A reference world

    One concrete instance of [Externals], small enough to run: image and
    video files are kept decoded, a capture object holds the frames it
    has yet to deliver, resizing samples the nearest source pixel, the
    detector reads which landmark lists to report from the low bits of
    the first array element (hands only together with a pose), and
    drawing paints one pixel per landmark.
    It is used to run the helpers on concrete inputs. *)
Module Ref.

Record world : Type := mk_world {
  files : gmap string ndarray;
  videos : gmap string (list ndarray);
  cameras : gmap Z (list ndarray);
  caps : list (option (list ndarray))
}.

Definition imread (path : string) (w : world) : option ndarray := files w !! path.

(** The reference world has writers for a few extensions and one flat
    directory: a path with another ending finds no writer, which raises;
    a path into a directory is not written, which the flag reports. *)
Definition ends_with (suffix s : string) : bool :=
  (String.length suffix <=? String.length s)%nat
  && String.eqb
       (String.substring (String.length s - String.length suffix)
          (String.length suffix) s)
       suffix.

Definition has_writer (path : string) : bool :=
  ends_with ".png" path || ends_with ".jpg" path || ends_with ".bmp" path.

Definition in_directory (path : string) : bool :=
  match String.index 0 "/" path with
  | Some _ => true
  | None => false
  end.

Definition imwrite (path : string) (img : ndarray) (w : world)
    : libcall bool * world :=
  if negb (has_writer path) then (inl Cv2Error, w)
  else if in_directory path then (inr false, w)
  else (inr true, mk_world (<[path := img]> (files w)) (videos w) (cameras w) (caps w)).

Definition resize_data (hs ws inner : nat) (d : list Z) (h w : nat) : list Z :=
  concat (map (fun i =>
    let row := take (ws * inner) (drop ((i * hs / h) * (ws * inner)) d) in
    concat (map (fun j => take inner (drop ((j * ws / w) * inner) row)) (seq 0 w)))
    (seq 0 h)).

Definition resize (src : ndarray) (dsize : Z * Z) (i : interpolation) : libcall ndarray :=
  let '(w, h) := dsize in
  if (w <=? 0) || (h <=? 0) then inl Cv2Error
  else
    match shape src with
    | hs :: ws :: rest =>
        if (hs =? 0)%nat || (ws =? 0)%nat then inl Cv2Error
        else inr {| shape := Z.to_nat h :: Z.to_nat w :: rest;
                    data := resize_data hs ws (size_of rest) (data src)
                              (Z.to_nat h) (Z.to_nat w) |}
    | _ => inl Cv2Error
    end.

Definition cvtColor (src : option ndarray) (code : color_code) : libcall ndarray :=
  match src with
  | Some a =>
      match shape a with
      | [_; _; 3%nat] =>
          inr {| shape := shape a; data := flip_data (shape a) 2 (data a) |}
      | _ => inl Cv2Error
      end
  | None => inl Cv2Error
  end.

Definition open_capture (frames : option (list ndarray)) (w : world)
    : libcall capture * world :=
  (inr (length (caps w)),
   mk_world (files w) (videos w) (cameras w) (caps w ++ [frames])).

Definition VideoCapture (source : pyobj) (w : world) : libcall capture * world :=
  match source with
  | PyStr path => open_capture (videos w !! path) w
  | PyInt index => open_capture (cameras w !! index) w
  | _ => (inl Cv2Error, w)
  end.

Definition isOpened (cap : capture) (w : world) : bool :=
  match caps w !! cap with
  | Some (Some _) => true
  | _ => false
  end.

Definition read (cap : capture) (w : world) : (bool * option ndarray) * world :=
  match caps w !! cap with
  | Some (Some (frame :: rest)) =>
      ((true, Some frame),
       mk_world (files w) (videos w) (cameras w) (<[cap := Some rest]> (caps w)))
  | _ => ((false, None), w)
  end.

Definition centre : landmark :=
  mk_landmark PyNum.half PyNum.half (S754_zero false).

Definition process (mdc mtc : PyNum.float) (img : ndarray) : libcall results :=
  match shape img, data img with
  | [_; _; 3%nat], v :: _ =>
      inr (mk_results
             (if Z.testbit v 0 then Some [centre] else None)
             (if Z.testbit v 0 && Z.testbit v 1 then Some [centre] else None)
             (if Z.testbit v 0 && Z.testbit v 2 then Some [centre] else None))
  | _, _ => inl MediapipeError
  end.

(** [min(floor(x * side), side - 1)], as mediapipe maps a normalized
    coordinate to a pixel index. *)
Definition to_pixel (x : PyNum.float) (side : nat) : nat :=
  let fx := SFmul PyNum.prec PyNum.emax x
              (binary_normalize PyNum.prec PyNum.emax (Z.of_nat side) 0 false) in
  match PyNum.int_of_float fx with
  | Return p => Nat.min (Z.to_nat p) (side - 1)
  | Raise _ => 0%nat
  end.

Fixpoint paint (at_ : nat) (col : list Z) (d : list Z) : list Z :=
  match col with
  | [] => d
  | c :: col' => paint (S at_) col' (<[at_ := c]> d)
  end.

Definition draw_point (h w ch : nat) (col : list Z) (d : list Z) (lm : landmark)
    : list Z :=
  paint ((to_pixel (lm_y lm) h * w + to_pixel (lm_x lm) w) * ch) (take ch col) d.

Definition draw (img : ndarray) (lms : option landmark_list) (conns : connections)
    (points lines : DrawingSpec) : libcall ndarray :=
  match lms with
  | None => inr img
  | Some lms =>
      match shape img with
      | [h; w; 3%nat] =>
          inr {| shape := shape img;
                 data := foldl (draw_point h w 3 (color points)) (data img) lms |}
      | _ => inl MediapipeError
      end
  end.

#[global] Instance externals : Externals world := {
  cv2_imread := imread;
  cv2_imwrite := imwrite;
  cv2_resize := resize;
  cv2_cvtColor := cvtColor;
  cv2_VideoCapture := VideoCapture;
  cap_isOpened := isOpened;
  cap_read := read;
  holistic_process := process;
  draw_landmarks := draw
}.

Definition empty_world : world := mk_world ∅ ∅ ∅ [].

Definition start (w : world) : state world := mk_state w [].

(** Sample arrays: a 2 x 2 BGR image whose first value tells the
    detector what to report (bit 0 the pose, bits 1 and 2 the hands); a
    2 x 3 one-channel image; a 1 x 1 one-channel image. *)
Definition bgr (v : Z) : ndarray :=
  mk_ndarray [2; 2; 3]%nat [v; 20; 30; 40; 50; 60; 70; 80; 90; 100; 110; 120].
Definition gray23 : ndarray := mk_ndarray [2; 3]%nat [1; 2; 3; 4; 5; 6].
Definition gray11 : ndarray := mk_ndarray [1; 1]%nat [7].

(** A world with one image file and one three-frame video, and the same
    world once a capture on that video has been made and has delivered
    [n] frames. *)
Definition clip : list ndarray := [bgr 1; bgr 5; bgr 0].

Definition studio : world :=
  mk_world {["photo.png" := gray23]} {["clip.mp4" := clip]} ∅ [].

Definition studio_playing (n : nat) : world :=
  mk_world (files studio) (videos studio) (cameras studio) [Some (drop n clip)].

(** A world with a video whose second frame has one channel, which the
    colour conversion refuses, and the same world once a capture on it
    has delivered [n] frames. *)
Definition torn_clip : list ndarray := [bgr 1; gray23; bgr 0].

Definition workshop : world :=
  mk_world {["photo.png" := bgr 4]} {["torn.mp4" := torn_clip]} ∅ [].

Definition workshop_playing (n : nat) : world :=
  mk_world (files workshop) (videos workshop) (cameras workshop) [Some (drop n torn_clip)].

End Ref.

(** ** The words of the specification, as definitions *)

Section SpecWords.
Context {world : Type} {E : Externals world}.

(** "draws an overlay for each of the detection results that is
    present": one [draw_landmarks] call per landmark list that is not
    [None], in the order pose, left hand, right hand. *)
Definition draw_if_present (img : ndarray) (lms : option landmark_list)
    (conns : connections) (points lines : DrawingSpec) : outcome ndarray :=
  match lms with
  | Some _ => from_lib (draw_landmarks img lms conns points lines)
  | None => Return img
  end.

Definition overlay_each_present (img : ndarray) (res : results)
    (points lines : DrawingSpec) : outcome ndarray :=
  (img <- draw_if_present img (pose_landmarks res) POSE_CONNECTIONS points lines ;;
   img <- draw_if_present img (left_hand_landmarks res) HAND_CONNECTIONS points lines ;;
   draw_if_present img (right_hand_landmarks res) HAND_CONNECTIONS points lines)%outcome.

(** A run of I/O calls none of which writes a file or touches a
    capture: only [cv2.imread] calls. *)
Definition only_reads (evs : list event) : Prop :=
  Forall (fun ev => exists path, ev = EvImread path) evs.

(** No [cap.release()] among the calls. *)
Definition never_released (evs : list event) : Prop :=
  Forall (fun ev => forall cap, ev <> EvRelease cap) evs.

(** The capture [cap] delivers exactly the frames [frames] from world
    [w] on, under the per-frame processing of [drawing_points_video]
    with the given parameters: each [cap.read()] succeeds with the next
    frame, whose processing returns, and the read after the last frame
    fails, leaving the world [w']. *)
Inductive delivers (cap : capture)
    (mdc mtc : PyNum.float) (pc : list Z) (pt pr : number)
    (cc : list Z) (ct cr : number) : world -> list ndarray -> world -> Prop :=
| delivers_end w w' leftover :
    cap_isOpened cap w = true ->
    cap_read cap w = ((false, leftover), w') ->
    delivers cap mdc mtc pc pt pr cc ct cr w [] w'
| delivers_frame w w1 w' frame frames img_rgb img' :
    cap_isOpened cap w = true ->
    cap_read cap w = ((true, Some frame), w1) ->
    cv2_cvtColor (Some frame) COLOR_BGR2RGB = inr img_rgb ->
    detect_and_draw_landmarks img_rgb mdc mtc pc pt pr cc ct cr = Return img' ->
    delivers cap mdc mtc pc pt pr cc ct cr w1 frames w' ->
    delivers cap mdc mtc pc pt pr cc ct cr w (frame :: frames) w'.

(** What is left of a run of the frame loop once the function's local
    variables are dropped, as they are when the function returns. *)
Definition forget_locals (r : outcome (option locals) * state world)
    : outcome (option unit) * state world :=
  (outcome_map (fmap (fun _ => tt)) r.1, r.2).

(** The per-frame step: colour conversion, then detection and
    drawing, with the parameters of the call. *)
Definition frame_step (mdc mtc : PyNum.float) (pc : list Z) (pt pr : number)
    (cc : list Z) (ct cr : number) (frame : option ndarray) : outcome ndarray :=
  (img_rgb <- from_lib (cv2_cvtColor frame COLOR_BGR2RGB) ;;
   detect_and_draw_landmarks img_rgb mdc mtc pc pt pr cc ct cr)%outcome.

(** The I/O calls of a loop that goes through [n] frames and then
    meets the failed read. *)
Definition loop_calls (cap : capture) (n : nat) : list event :=
  concat (replicate (S n) [EvIsOpened cap; EvRead cap]).

(** From world [w] on, the capture [cap] delivers [n] frames whose
    processing returns and then a frame whose processing raises [e];
    [w'] is the world after that last read. *)
Inductive breaks_after (cap : capture)
    (mdc mtc : PyNum.float) (pc : list Z) (pt pr : number)
    (cc : list Z) (ct cr : number) : world -> nat -> exn -> world -> Prop :=
| breaks_now w w' frame e :
    cap_isOpened cap w = true ->
    cap_read cap w = ((true, frame), w') ->
    frame_step mdc mtc pc pt pr cc ct cr frame = Raise e ->
    breaks_after cap mdc mtc pc pt pr cc ct cr w 0 e w'
| breaks_later w w1 w' frame img' n e :
    cap_isOpened cap w = true ->
    cap_read cap w = ((true, frame), w1) ->
    frame_step mdc mtc pc pt pr cc ct cr frame = Return img' ->
    breaks_after cap mdc mtc pc pt pr cc ct cr w1 n e w' ->
    breaks_after cap mdc mtc pc pt pr cc ct cr w (S n) e w'.

(** From [st] to [st'] the world stayed as it was and the only I/O was
    at most one [cv2.imread]. *)
Definition only_read_since (st st' : state world) : Prop :=
  st_world st' = st_world st
  /\ exists reads,
       st_log st' = st_log st ++ reads /\ only_reads reads /\ (length reads <= 1)%nat.

End SpecWords.

(** The float [x] is exactly [n / 2]. *)
Definition is_half_of (x : PyNum.float) (n : Z) : Prop :=
  match x with
  | S754_zero _ => n = 0
  | S754_finite s m e =>
      2 * (if s then - Zpos m else Zpos m) * 2 ^ Z.max e 0 = n * 2 ^ Z.max (- e) 0
  | _ => False
  end.

(** [a[r, c]], flattened, at position [k]: element [k] of the pixel in
    row [r] and column [c] of an array with at least two axes. *)
Definition entry (a : ndarray) (r c k : nat) : option Z :=
  match shape a with
  | _ :: w :: rest => data a !! ((r * w + c) * size_of rest + k)%nat
  | _ => None
  end.

(** * Properties *)

(** ** The helpers on small inputs *)

Example truediv_half : PyNum.truediv 1 2 = Return PyNum.half.
Proof. reflexivity. Qed.

Example int_truediv_below_one : PyNum.int_truediv (1 * 50) 100 = Return 0.
Proof. reflexivity. Qed.

Example int_truediv_truncates : PyNum.int_truediv (3 * 50) 100 = Return 1.
Proof. reflexivity. Qed.

Example int_truediv_by_zero : PyNum.int_truediv 7 0 = Raise ZeroDivisionError.
Proof. reflexivity. Qed.

(** Beyond [2^53] the float quotient is no longer the exact one:
    [int((2**53 * 100 - 1) / 100)] is [2**53], not [2**53 - 1]. *)
Example int_truediv_large :
  PyNum.int_truediv (2 ^ 53 * 100 - 1) 100 = Return (2 ^ 53)
  /\ (2 ^ 53 * 100 - 1) / 100 = 2 ^ 53 - 1.
Proof. split; reflexivity. Qed.

Example flip_columns :
  np_flip Ref.gray23 1 = Return (mk_ndarray [2; 3]%nat [3; 2; 1; 6; 5; 4]).
Proof. reflexivity. Qed.

Example flip_rows :
  np_flip Ref.gray23 0 = Return (mk_ndarray [2; 3]%nat [4; 5; 6; 1; 2; 3]).
Proof. reflexivity. Qed.

Example flip_columns_keeps_pixels :
  np_flip (Ref.bgr 1) 1 =
    Return (mk_ndarray [2; 2; 3]%nat [40; 50; 60; 1; 20; 30; 100; 110; 120; 70; 80; 90]).
Proof. reflexivity. Qed.

Example flip_no_such_axis :
  np_flip (mk_ndarray [6]%nat [1; 2; 3; 4; 5; 6]) 1 = Raise (External AxisError).
Proof. reflexivity. Qed.

Example open_img_file :
  open_img (PyStr "photo.png") (Ref.start Ref.studio) =
    (Return Ref.gray23, mk_state Ref.studio [EvImread "photo.png"]).
Proof. reflexivity. Qed.

Example open_img_no_file :
  open_img (PyStr "nowhere.png") (Ref.start Ref.studio) =
    (Raise (Domain PathToImageIsIncorrectError), mk_state Ref.studio [EvImread "nowhere.png"]).
Proof. reflexivity. Qed.

Example open_img_number :
  open_img (PyInt 3) (Ref.start Ref.studio) =
    (Raise (TypeError "Input must be string or Image."), Ref.start Ref.studio).
Proof. reflexivity. Qed.

(** The centre of a 2 x 3 array is [(1.5, 1.0)]. *)
Example center_of_img_2x3 :
  (center_of_img (PyArray Ref.gray23) (Ref.start Ref.empty_world)).1 =
    Return (S754_finite false 6755399441055744 (-52),
            S754_finite false 4503599627370496 (-52)).
Proof. reflexivity. Qed.

(** A frame whose first RGB value asks the reference detector for a
    pose gets the pose landmark painted at its centre pixel. *)
Example drawing_points_img_pose :
  (drawing_points_img
     (PyArray (mk_ndarray [2; 2; 3]%nat [1; 2; 3; 4; 5; 6; 7; 8; 9; 10; 11; 13]))
     default_rescale "" default_confidence default_confidence
     default_points_color default_thickness default_radius
     default_connect_color default_thickness default_radius 0 true
     (Ref.start Ref.empty_world)).1 =
    Return (mk_ndarray [2; 2; 3]%nat [3; 2; 1; 6; 5; 4; 9; 8; 7; 0; 0; 255]).
Proof. reflexivity. Qed.

Example rescale_img_grow :
  (rescale_img (PyArray Ref.gray23) 200 (Ref.start Ref.empty_world)).1 =
    Return (mk_ndarray [4; 6]%nat
              [1; 1; 2; 2; 3; 3; 1; 1; 2; 2; 3; 3; 4; 4; 5; 5; 6; 6; 4; 4; 5; 5; 6; 6]).
Proof. reflexivity. Qed.

Example rescale_img_one_dimension :
  (rescale_img (PyArray (mk_ndarray [6]%nat [1; 2; 3; 4; 5; 6])) 50
     (Ref.start Ref.empty_world)).1 = Raise (IndexError "tuple index out of range").
Proof. reflexivity. Qed.

Example img_mirror_saves :
  img_mirror (PyStr "photo.png") (Some "mirror.png") (Ref.start Ref.studio) =
    (Return (mk_ndarray [2; 3]%nat [3; 2; 1; 6; 5; 4]),
     mk_state
       (Ref.mk_world
          (<["mirror.png" := mk_ndarray [2; 3]%nat [3; 2; 1; 6; 5; 4]]> (Ref.files Ref.studio))
          (Ref.videos Ref.studio) (Ref.cameras Ref.studio) [])
       [EvImread "photo.png";
        EvImwrite "mirror.png" (mk_ndarray [2; 3]%nat [3; 2; 1; 6; 5; 4])]).
Proof. reflexivity. Qed.

Example img_mirror_empty_path :
  img_mirror (PyArray Ref.gray23) (Some "") (Ref.start Ref.studio) =
    (Return (mk_ndarray [2; 3]%nat [3; 2; 1; 6; 5; 4]), Ref.start Ref.studio).
Proof. reflexivity. Qed.

Example video_out_of_fuel :
  (drawing_points_video 2 (PyStr "clip.mp4") default_rescale ""
     default_confidence default_confidence
     default_points_color default_thickness default_radius
     default_connect_color default_thickness default_radius (Ref.start Ref.studio)).1 =
    Return None.
Proof. reflexivity. Qed.

Example video_no_file :
  (drawing_points_video 2 (PyStr "nowhere.mp4") default_rescale ""
     default_confidence default_confidence
     default_points_color default_thickness default_radius
     default_connect_color default_thickness default_radius (Ref.start Ref.studio)).1 =
    Raise (Domain PathToVideoIsIncorrectError).
Proof. reflexivity. Qed.

Example video_bad_source :
  (drawing_points_video 2 PyNone default_rescale ""
     default_confidence default_confidence
     default_points_color default_thickness default_radius
     default_connect_color default_thickness default_radius (Ref.start Ref.studio)).1 =
    Raise (External Cv2Error).
Proof. reflexivity. Qed.

(** ** Blocks of a list and [np.flip] *)

Section Chunks.
Context {A : Type}.
Implicit Types (l : list A) (ls : list (list A)).

Lemma length_chunks n k l : length (chunks n k l) = k.
Proof. revert l. induction k as [|k IH]; intros l; simpl; [done|]. by rewrite IH. Qed.

Lemma chunks_block_length n k l :
  length l = (k * n)%nat -> Forall (fun c => length c = n) (chunks n k l).
Proof.
  revert l. induction k as [|k IH]; intros l Hl; simpl; constructor.
  - rewrite length_take. simpl in Hl. lia.
  - apply IH. rewrite length_drop. simpl in Hl. lia.
Qed.

Lemma concat_chunks n k l :
  length l = (k * n)%nat -> concat (chunks n k l) = l.
Proof.
  revert l. induction k as [|k IH]; intros l Hl; simpl.
  - simpl in Hl. by destruct l.
  - rewrite IH; [apply take_drop|]. rewrite length_drop. simpl in Hl. lia.
Qed.

Lemma chunks_concat n ls :
  Forall (fun c => length c = n) ls -> chunks n (length ls) (concat ls) = ls.
Proof.
  induction 1 as [|c ls Hc _ IH]; simpl; [done|].
  rewrite take_app_length', drop_app_length' by done. by rewrite IH.
Qed.

Lemma length_concat_blocks n ls :
  Forall (fun c => length c = n) ls -> length (concat ls) = (length ls * n)%nat.
Proof.
  induction 1 as [|c ls Hc _ IH]; simpl; [done|].
  rewrite length_app, IH, Hc. done.
Qed.
End Chunks.

(** The size of a block under the first axis. *)
Lemma size_of_cons d rest : size_of (d :: rest) = (d * size_of rest)%nat.
Proof. reflexivity. Qed.

(** Flipping keeps the number of elements. *)
Lemma length_flip_data sh axis l :
  length l = size_of sh -> length (flip_data sh axis l) = length l.
Proof.
  revert axis l. induction sh as [|d rest IH]; intros axis l Hl; simpl; [done|].
  rewrite size_of_cons in Hl.
  pose proof (chunks_block_length (size_of rest) d l Hl) as Hb.
  destruct axis as [|axis].
  - rewrite (length_concat_blocks (size_of rest)).
    + rewrite length_reverse, length_chunks. lia.
    + by apply Forall_reverse.
  - rewrite (length_concat_blocks (size_of rest)).
    + rewrite length_map, length_chunks. lia.
    + apply Forall_fmap. eapply Forall_impl; [exact Hb|].
      intros c Hc. simpl in *. by rewrite IH.
Qed.

(** Flipping twice along the same axis restores the data. *)
Lemma flip_data_involutive sh axis l :
  length l = size_of sh -> flip_data sh axis (flip_data sh axis l) = l.
Proof.
  revert axis l. induction sh as [|d rest IH]; intros axis l Hl; simpl; [done|].
  rewrite size_of_cons in Hl.
  pose proof (chunks_block_length (size_of rest) d l Hl) as Hb.
  destruct axis as [|axis].
  - replace d with (length (reverse (chunks (size_of rest) d l))) at 1
      by (by rewrite length_reverse, length_chunks).
    rewrite chunks_concat by (by apply Forall_reverse).
    rewrite reverse_involutive. by apply concat_chunks.
  - replace d with (length (map (flip_data rest axis) (chunks (size_of rest) d l))) at 1
      by (by rewrite length_map, length_chunks).
    rewrite chunks_concat.
    + rewrite <- list_fmap_compose.
      rewrite <- (concat_chunks (size_of rest) d l Hl) at 2.
      f_equal. rewrite <- (list_fmap_id (chunks _ _ _)) at 2.
      apply Forall_fmap_ext. eapply Forall_impl; [exact Hb|].
      intros c Hc. simpl. by apply IH.
    + apply Forall_fmap. eapply Forall_impl; [exact Hb|].
      intros c Hc. simpl in *. by rewrite length_flip_data.
Qed.

Lemma np_flip_shape m axis r : np_flip m axis = Return r -> shape r = shape m.
Proof. unfold np_flip. case_decide; [|done]. by intros [= <-]. Qed.

Lemma np_flip_wf m axis r : ndarray_wf m -> np_flip m axis = Return r -> ndarray_wf r.
Proof.
  unfold np_flip, ndarray_wf. intros Hm. case_decide; [|done]. intros [= <-]. simpl.
  by rewrite length_flip_data.
Qed.

Lemma np_flip_returns m axis :
  (axis < ndim m)%nat ->
  np_flip m axis = Return {| shape := shape m; data := flip_data (shape m) axis (data m) |}.
Proof. intros H. unfold np_flip. by case_decide. Qed.

Lemma np_flip_involutive m axis r :
  ndarray_wf m -> np_flip m axis = Return r -> np_flip r axis = Return m.
Proof.
  unfold np_flip, ndarray_wf, ndim. intros Hm. case_decide; [|done]. intros [= <-]. simpl.
  case_decide; [|done]. rewrite flip_data_involutive by done. by destruct m.
Qed.

(** ** The reference world honours the library contract *)

Lemma ref_contract : LibContract Ref.externals.
Proof.
  split.
  - intros src w h i Hwh. simpl. unfold Ref.resize.
    destruct (w <=? 0) eqn:Hw; [done|]. destruct (h <=? 0) eqn:Hh; [done|]. lia.
  - intros src w h i r. simpl. unfold Ref.resize.
    destruct ((w <=? 0) || (h <=? 0)); [done|].
    destruct (shape src) as [|hs [|ws rest]]; [done..|].
    destruct ((hs =? 0)%nat || (ws =? 0)%nat); [done|]. by intros [= <-].
  - done.
Qed.

Lemma ref_detector_contract : DetectorContract Ref.externals.
Proof.
  split. intros mdc mtc img res Hres Hpose. simpl in Hres. unfold Ref.process in Hres.
  repeat case_match; simplify_eq; simpl in *; done.
Qed.

(** ** [open_img] *)

Section OpenImg.
Context {world : Type} {E : Externals world}.
Implicit Types (st : state world) (source : pyobj) (img : ndarray).

(** Opening leaves the world as it is and logs nothing but the
    [cv2.imread] call, if any. *)
Lemma open_img_effect source st o st' :
  open_img source st = (o, st') ->
  st' = st \/ exists path, source = PyStr path /\ st' = log_event (EvImread path) st.
Proof.
  destruct source as [|path|n|x|a]; simpl; unfold raise, ret;
    try (intros [= _ <-]; by left).
  unfold bind, imread. destruct (cv2_imread path (st_world st));
    unfold raise, ret; intros [= _ <-]; right; eauto.
Qed.

Lemma open_img_world source st o st' :
  open_img source st = (o, st') -> st_world st' = st_world st.
Proof. intros H. by destruct (open_img_effect _ _ _ _ H) as [->|(? & _ & ->)]. Qed.

Lemma open_img_log source st o st' :
  open_img source st = (o, st') ->
  exists reads, st_log st' = st_log st ++ reads /\ only_reads reads.
Proof.
  intros H. destruct (open_img_effect _ _ _ _ H) as [->|(path & _ & ->)].
  - exists []. split; [by rewrite app_nil_r | constructor].
  - exists [EvImread path]. split; [done|]. repeat constructor. eauto.
Qed.

(** C2.  For a string [path], [open_img] issues one [cv2.imread path]:
    when the decode result is [None] it raises
    [PathToImageIsIncorrectError], otherwise it returns the decoded
    array (an [ndarray], so not [None]); the error is raised exactly
    when the decode result is [None]. *)
Theorem open_img_path (path : string) st :
  open_img (PyStr path) st =
    (match cv2_imread path (st_world st) with
     | Some img => Return img
     | None => Raise (Domain PathToImageIsIncorrectError)
     end,
     log_event (EvImread path) st)
  /\ ((open_img (PyStr path) st).1 = Raise (Domain PathToImageIsIncorrectError)
      <-> cv2_imread path (st_world st) = None).
Proof.
  assert (Hrun : open_img (PyStr path) st =
    (match cv2_imread path (st_world st) with
     | Some img => Return img
     | None => Raise (Domain PathToImageIsIncorrectError)
     end, log_event (EvImread path) st)).
  { simpl. unfold bind, imread. by destruct (cv2_imread path (st_world st)). }
  split; [exact Hrun|]. rewrite Hrun. simpl.
  destruct (cv2_imread path (st_world st)); split; congruence.
Qed.

(** C6.  [open_img(None)] raises [ImageNotExistsError], and does
    nothing else. *)
Theorem open_img_none st :
  open_img PyNone st = (Raise (Domain ImageNotExistsError), st).
Proof. reflexivity. Qed.

(** C10.  An array given as [source] comes back as it is, whatever its
    shape and contents, with no call on the outside world.  The
    rejections by kind of value are exactly these: [ImageNotExistsError]
    for [None], [TypeError] for a value that is neither [None], nor a
    string, nor an array; so among the sources that are not strings
    exactly those that are not arrays are rejected.  (A string is a path
    and goes to [cv2.imread].) *)
Theorem open_img_array :
  (forall img st, open_img (PyArray img) st = (Return img, st))
  /\ (forall source st,
        (open_img source st).1 = Raise (Domain ImageNotExistsError)
          <-> source = PyNone)
  /\ (forall source st,
        (open_img source st).1 = Raise (TypeError "Input must be string or Image.")
          <-> source <> PyNone /\ is_str source = false
              /\ forall img, source <> PyArray img)
  /\ (forall source st, is_str source = false ->
        ((exists e, (open_img source st).1 = Raise e)
           <-> forall img, source <> PyArray img)).
Proof.
  split; [done|]. split; [|split].
  - intros source st. destruct source as [|path|n|x|a]; simpl; try (split; congruence).
    unfold bind, imread. destruct (cv2_imread path (st_world st)); simpl; split; congruence.
  - intros source st. destruct source as [|path|n|x|a]; simpl.
    + split; [congruence | by intros [? _]].
    + unfold bind, imread.
      destruct (cv2_imread path (st_world st)); simpl;
        (split; [congruence | by intros (_ & ? & _)]).
    + split; [done | done].
    + split; [done | done].
    + split; [congruence | intros (_ & _ & Hn); by destruct (Hn a)].
  - intros source st Hs. destruct source as [|path|n|x|a]; try discriminate Hs; simpl.
    + split; [done | eauto].
    + split; [done | eauto].
    + split; [done | eauto].
    + split; [intros [e He]; discriminate He | intros Hn; by destruct (Hn a)].
Qed.

End OpenImg.

(** ** [img_mirror] *)

Section ImgMirror.
Context {world : Type} {E : Externals world}.
Implicit Types (st : state world) (source : pyobj) (img : ndarray).

Lemma is_image_axis1 img : is_image img -> (1 < ndim img)%nat.
Proof. intros [_ [H|H]]; lia. Qed.

Lemma np_flip_image img :
  is_image img -> exists mirrored, np_flip img 1 = Return mirrored /\ is_image mirrored.
Proof.
  intros Hi. pose proof (is_image_axis1 _ Hi) as H1.
  eexists. split; [by apply np_flip_returns|].
  destruct Hi as [Hwf Hd]. split; [|exact Hd].
  eapply np_flip_wf; [exact Hwf | by apply np_flip_returns].
Qed.

(** How [img_mirror] runs once the source is open and flipped. *)
Lemma img_mirror_run source destination_path st img st1 mirrored :
  open_img source st = (Return img, st1) ->
  np_flip img 1 = Return mirrored ->
  img_mirror source destination_path st =
    match destination_path with
    | Some p =>
        if negb (String.eqb p "")
        then (match (cv2_imwrite p mirrored (st_world st1)).1 with
              | inr _ => Return mirrored
              | inl e => Raise (External e)
              end,
              mk_state (cv2_imwrite p mirrored (st_world st1)).2
                       (st_log st1 ++ [EvImwrite p mirrored]))
        else (Return mirrored, st1)
    | None => (Return mirrored, st1)
    end.
Proof.
  intros Ho Hf. unfold img_mirror, bind. rewrite Ho. unfold lift. rewrite Hf.
  destruct destination_path as [p|]; [|done].
  destruct (negb (String.eqb p "")); [|done].
  unfold imwrite. by destruct (cv2_imwrite p mirrored (st_world st1)) as [[e|ok] w].
Qed.

(** C3.  Mirroring an image array and mirroring the result again,
    both times without a destination path, gives back the original
    array: same shape, same elements. *)
Theorem img_mirror_twice img st :
  is_image img ->
  exists mirrored,
    img_mirror (PyArray img) None st = (Return mirrored, st)
    /\ img_mirror (PyArray mirrored) None st = (Return img, st).
Proof.
  intros Hi. destruct (np_flip_image img Hi) as (mirrored & Hf & _).
  exists mirrored. split.
  - by rewrite (img_mirror_run _ None st img st mirrored).
  - rewrite (img_mirror_run _ None st mirrored st img); [done..|].
    eapply np_flip_involutive; [apply Hi | exact Hf].
Qed.

(** C8, amended.  For an image (given as an array, or as a path that
    opens) and a destination path other than [""], [img_mirror] issues
    exactly one write call, [cv2.imwrite(destination_path, mirrored)],
    after opening the source; when that call returns, whatever its
    success flag says, [img_mirror] returns the mirrored image, and when
    it raises, its error comes out of [img_mirror].  What the call does
    to the world is the library's doing.  Without a destination path
    [img_mirror] issues no write at all (the world is the one it started
    in and only reads were logged) and returns the mirrored image. *)
Theorem img_mirror_write source img st st1 :
  open_img source st = (Return img, st1) ->
  is_image img ->
  exists mirrored,
    np_flip img 1 = Return mirrored
    /\ (forall p, p <> ""%string ->
          img_mirror source (Some p) st =
            (match (cv2_imwrite p mirrored (st_world st)).1 with
             | inr _ => Return mirrored
             | inl e => Raise (External e)
             end,
             mk_state (cv2_imwrite p mirrored (st_world st)).2
                      (st_log st1 ++ [EvImwrite p mirrored])))
    /\ img_mirror source None st = (Return mirrored, st1)
    /\ st_world st1 = st_world st
    /\ (exists reads, st_log st1 = st_log st ++ reads /\ only_reads reads).
Proof.
  intros Ho Hi. destruct (np_flip_image img Hi) as (mirrored & Hf & _).
  exists mirrored. split; [exact Hf|].
  pose proof (open_img_world _ _ _ _ Ho) as Hw.
  repeat split.
  - intros p Hp. rewrite (img_mirror_run _ (Some p) st img st1 mirrored) by done.
    apply String.eqb_neq in Hp. rewrite Hp. simpl. by rewrite Hw.
  - by rewrite (img_mirror_run _ None st img st1 mirrored).
  - exact Hw.
  - eapply open_img_log. exact Ho.
Qed.

End ImgMirror.

(** ** [detect_and_draw_landmarks] *)

Section DetectAndDraw.
Context {world : Type} {E : Externals world} {C : LibContract E}.
Variables (mdc mtc : PyNum.float) (pc : list Z) (pt pr : number)
          (cc : list Z) (ct cr : number).

Lemma draw_if_present_call img lms conns points lines :
  draw_if_present img lms conns points lines =
    from_lib (draw_landmarks img lms conns points lines).
Proof.
  destruct lms; [done|]. simpl. by rewrite draw_landmarks_none.
Qed.

(** The guard of [detect_and_draw_landmarks] is on the pose alone:
    when the detector reports pose landmarks, the frame gets the pose
    overlay and then an overlay for each hand whose landmarks are
    present; when it reports no pose landmarks nothing is drawn and the
    frame is returned as it is. *)
Theorem detect_and_draw_landmarks_overlay img res :
  holistic_process mdc mtc img = inr res ->
  detect_and_draw_landmarks img mdc mtc pc pt pr cc ct cr =
    match pose_landmarks res with
    | Some _ =>
        overlay_each_present img res
          (mk_DrawingSpec pc pt pr) (mk_DrawingSpec cc ct cr)
    | None => Return img
    end.
Proof.
  intros Hres. unfold detect_and_draw_landmarks. rewrite Hres. simpl.
  destruct (pose_landmarks res) as [pose|] eqn:Hpose; [|done].
  unfold overlay_each_present. rewrite Hpose. simpl.
  destruct (draw_landmarks img (Some pose) _ _ _) as [e|img1]; [done|]. simpl.
  rewrite draw_if_present_call.
  destruct (draw_landmarks img1 (left_hand_landmarks res) _ _ _) as [e|img2];
    simpl; [done|].
  rewrite draw_if_present_call.
  by destruct (draw_landmarks img2 (right_hand_landmarks res) _ _ _).
Qed.

(** Nothing that [detect_and_draw_landmarks] raises is one of the
    module's own errors. *)
Lemma detect_and_draw_landmarks_not_domain img d :
  detect_and_draw_landmarks img mdc mtc pc pt pr cc ct cr <> Raise (Domain d).
Proof.
  clear C. unfold detect_and_draw_landmarks.
  destruct (holistic_process mdc mtc img) as [e|res]; [done|]. simpl.
  destruct (pose_landmarks res); [|done].
  destruct (draw_landmarks img _ _ _ _) as [e|img1]; [done|]. simpl.
  destruct (draw_landmarks img1 _ _ _ _) as [e|img2]; [done|]. simpl.
  by destruct (draw_landmarks img2 _ _ _ _).
Qed.

End DetectAndDraw.

Section EachPresent.
Context {world : Type} {E : Externals world}.
Context {C : LibContract E} {D : DetectorContract E}.
Variables (mdc mtc : PyNum.float) (pc : list Z) (pt pr : number)
          (cc : list Z) (ct cr : number).

(** C4.  With a detector that finds hands only where it finds a pose,
    [detect_and_draw_landmarks] draws an overlay for each of the results
    that is present (pose, left hand, right hand, in that order, each
    with the point and connection styles of the call) and returns the
    frame as it is, nothing drawn, when no result is present. *)
Theorem detect_and_draw_landmarks_each_present img res :
  holistic_process mdc mtc img = inr res ->
  detect_and_draw_landmarks img mdc mtc pc pt pr cc ct cr =
    overlay_each_present img res (mk_DrawingSpec pc pt pr) (mk_DrawingSpec cc ct cr)
  /\ (pose_landmarks res = None -> left_hand_landmarks res = None ->
      right_hand_landmarks res = None ->
      detect_and_draw_landmarks img mdc mtc pc pt pr cc ct cr = Return img).
Proof.
  intros Hres. rewrite (detect_and_draw_landmarks_overlay mdc mtc pc pt pr cc ct cr img res Hres).
  destruct (pose_landmarks res) as [pose|] eqn:Hpose; [done|].
  destruct (hands_need_pose mdc mtc img res Hres Hpose) as [Hl Hr].
  split; [|done]. unfold overlay_each_present. by rewrite Hpose, Hl, Hr.
Qed.

End EachPresent.

(** ** [rescale_img]: the guard on the factor *)

Section RescaleGuard.
Context {world : Type} {E : Externals world}.

(** C5.  With a factor [<= 0], [rescale_img] raises [ValueError]
    whatever the source is, and it does so before opening the source:
    the state (world and log of I/O calls) is the one it started in. *)
Theorem rescale_img_nonpositive (source : pyobj) (rescale_factor : Z)
    (st : state world) :
  rescale_factor <= 0 ->
  rescale_img source rescale_factor st =
    (Raise (ValueError "Rescale factor must be positive integer."), st).
Proof.
  intros Hf. unfold rescale_img.
  destruct (rescale_factor <=? 0) eqn:Hle; [done|]. lia.
Qed.

End RescaleGuard.

(** ** [drawing_points_video] *)

Section Video.
Context {world : Type} {E : Externals world}.
Variables (mdc mtc : PyNum.float) (pc : list Z) (pt pr : number)
          (cc : list Z) (ct cr : number).
Implicit Types (st : state world) (cap : capture) (vars : locals) (fuel : nat).

Local Abbreviation loop fuel cap := (frame_loop fuel cap mdc mtc pc pt pr cc ct cr).
Local Abbreviation step := (frame_step mdc mtc pc pt pr cc ct cr).

(** One iteration of the loop. *)
Lemma frame_loop_iteration fuel cap vars st :
  loop (S fuel) cap vars st =
    let st1 := log_event (EvIsOpened cap) st in
    if cap_isOpened cap (st_world st) then
      let '((success, frame), w2) := cap_read cap (st_world st) in
      let st2 := mk_state w2 (st_log st1 ++ [EvRead cap]) in
      if success then
        match from_lib (cv2_cvtColor frame COLOR_BGR2RGB) with
        | Return img_rgb =>
            match detect_and_draw_landmarks img_rgb mdc mtc pc pt pr cc ct cr with
            | Return img' =>
                loop fuel cap
                  (mk_locals (Some success) (Some (Some img')) (Some img')) st2
            | Raise e => (Raise e, st2)
            end
        | Raise e => (Raise e, st2)
        end
      else (Return (Some (mk_locals (Some success) (Some frame) (l_img_rgb vars))), st2)
    else (Return (Some vars), st1).
Proof.
  simpl. unfold bind, isOpened, read, lift, ret, log_event. simpl.
  destruct (cap_isOpened cap (st_world st)); [|done].
  destruct (cap_read cap (st_world st)) as [[success frame] w2] eqn:Hr. simpl.
  rewrite ?Hr. destruct success; [|done]. simpl.
  destruct (from_lib (cv2_cvtColor frame COLOR_BGR2RGB)) as [img_rgb|e]; [|done].
  by destruct (detect_and_draw_landmarks img_rgb mdc mtc pc pt pr cc ct cr).
Qed.

(** The variables the previous frame left behind do not matter. *)
Lemma frame_loop_locals_irrelevant fuel cap vars vars' st :
  forget_locals (loop fuel cap vars st) = forget_locals (loop fuel cap vars' st).
Proof.
  destruct fuel as [|fuel]; [done|]. rewrite !frame_loop_iteration. simpl.
  destruct (cap_isOpened cap (st_world st)); [|done].
  destruct (cap_read cap (st_world st)) as [[[] frame] w2]; done.
Qed.

(** On a successful read the frame goes through the per-frame step
    and the loop goes on, taking nothing along. *)
Lemma frame_loop_next_frame fuel cap vars st frame w2 :
  cap_isOpened cap (st_world st) = true ->
  cap_read cap (st_world st) = ((true, frame), w2) ->
  forget_locals (loop (S fuel) cap vars st) =
    let st2 := mk_state w2 (st_log st ++ [EvIsOpened cap; EvRead cap]) in
    match step frame with
    | Return _ => forget_locals (loop fuel cap unbound st2)
    | Raise e => (Raise e, st2)
    end.
Proof.
  intros Ho Hr. rewrite frame_loop_iteration. simpl. rewrite Ho, Hr.
  unfold frame_step. rewrite <- !app_assoc. simpl.
  destruct (from_lib (cv2_cvtColor frame COLOR_BGR2RGB)) as [img_rgb|e]; [|done]. simpl.
  destruct (detect_and_draw_landmarks img_rgb mdc mtc pc pt pr cc ct cr); [|done].
  apply frame_loop_locals_irrelevant.
Qed.

(** The loop ends at the first failed read. *)
Lemma frame_loop_delivers cap w frames w' :
  delivers cap mdc mtc pc pt pr cc ct cr w frames w' ->
  forall fuel vars log, (length frames < fuel)%nat ->
    forget_locals (loop fuel cap vars (mk_state w log)) =
      (Return (Some tt), mk_state w' (log ++ loop_calls cap (length frames))).
Proof.
  induction 1 as [w w' leftover Ho Hr | w w1 w' frame frames img_rgb img' Ho Hr Hc Hd _ IH];
    intros fuel vars log Hfuel; (destruct fuel as [|fuel]; [simpl in Hfuel; lia|]).
  - rewrite frame_loop_iteration. simpl. rewrite Ho, Hr. unfold forget_locals. simpl.
    unfold loop_calls. simpl. by rewrite <- !app_assoc.
  - rewrite (frame_loop_next_frame fuel cap vars _ (Some frame) w1) by done.
    unfold frame_step. rewrite Hc. simpl. rewrite Hd.
    rewrite IH by (simpl in Hfuel; lia). simpl.
    unfold loop_calls. simpl. by rewrite <- !app_assoc.
Qed.

(** The loop logs only [isOpened] and [read] calls on its capture. *)
Lemma frame_loop_log fuel cap vars st :
  exists evs,
    st_log (loop fuel cap vars st).2 = st_log st ++ evs
    /\ Forall (fun ev => ev = EvIsOpened cap \/ ev = EvRead cap) evs.
Proof.
  revert vars st. induction fuel as [|fuel IH]; intros vars st.
  - exists []. simpl. split; [by rewrite app_nil_r | constructor].
  - rewrite frame_loop_iteration. simpl.
    destruct (cap_isOpened cap (st_world st)).
    + destruct (cap_read cap (st_world st)) as [[success frame] w2].
      assert (Hev : Forall (fun ev => ev = EvIsOpened cap \/ ev = EvRead cap)
                      [EvIsOpened cap; EvRead cap]) by (repeat constructor; auto).
      destruct success.
      * destruct (from_lib (cv2_cvtColor frame COLOR_BGR2RGB)) as [img_rgb|e].
        -- destruct (detect_and_draw_landmarks img_rgb mdc mtc pc pt pr cc ct cr).
           ++ edestruct IH as (evs & -> & Hevs). simpl.
              exists ([EvIsOpened cap; EvRead cap] ++ evs).
              split; [by rewrite <- !app_assoc | by apply Forall_app].
           ++ exists [EvIsOpened cap; EvRead cap]. simpl. by rewrite <- app_assoc.
        -- exists [EvIsOpened cap; EvRead cap]. simpl. by rewrite <- app_assoc.
      * exists [EvIsOpened cap; EvRead cap]. simpl. by rewrite <- app_assoc.
    + exists [EvIsOpened cap]. simpl. split; [done|]. repeat constructor; auto.
Qed.

(** The loop never raises one of the module's own errors. *)
Lemma frame_loop_not_domain fuel cap vars st d :
  (loop fuel cap vars st).1 <> Raise (Domain d).
Proof.
  revert vars st. induction fuel as [|fuel IH]; intros vars st; [done|].
  rewrite frame_loop_iteration. simpl.
  destruct (cap_isOpened cap (st_world st)); [|done].
  destruct (cap_read cap (st_world st)) as [[[] frame] w2]; [|done].
  destruct (cv2_cvtColor frame COLOR_BGR2RGB) as [e|img_rgb]; [done|]. simpl.
  destruct (detect_and_draw_landmarks img_rgb mdc mtc pc pt pr cc ct cr) eqn:Hd.
  - apply IH.
  - simpl. intros [= ->]. by eapply detect_and_draw_landmarks_not_domain.
Qed.

(** [drawing_points_video] up to the loop. *)
Lemma drawing_points_video_run fuel (source : pyobj) (rescale : Z)
    (window_name : string) st cap w1 :
  cv2_VideoCapture source (st_world st) = (inr cap, w1) ->
  drawing_points_video fuel source rescale window_name
      mdc mtc pc pt pr cc ct cr st =
    let st1 := mk_state w1 (st_log st ++ [EvVideoCapture source; EvIsOpened cap]) in
    if cap_isOpened cap w1
    then forget_locals (loop fuel cap unbound st1)
    else (Raise (Domain (if is_str source then PathToVideoIsIncorrectError
                         else CameraIndexIsIncorrect)), st1).
Proof.
  intros Hcap. unfold drawing_points_video, bind at 1, VideoCapture. rewrite Hcap. simpl.
  unfold bind at 1, isOpened. simpl. unfold log_event. simpl. rewrite <- app_assoc. simpl.
  destruct (cap_isOpened cap w1); simpl.
  - unfold bind, forget_locals.
    destruct (frame_loop _ _ _ _ _ _ _ _ _ _ _ _) as [[v|e] st']; done.
  - by destruct (is_str source).
Qed.

(** C7.  When the capture made from [source] is not opened,
    [drawing_points_video] raises [PathToVideoIsIncorrectError] if
    [source] is a string and [CameraIndexIsIncorrect] if it is not; when
    the capture is opened it raises neither (indeed none of the module's
    own errors), however long it runs. *)
Theorem drawing_points_video_errors fuel (source : pyobj) (rescale : Z)
    (window_name : string) st cap w1 :
  cv2_VideoCapture source (st_world st) = (inr cap, w1) ->
  (cap_isOpened cap w1 = false ->
     (drawing_points_video fuel source rescale window_name
        mdc mtc pc pt pr cc ct cr st).1 =
       Raise (Domain (if is_str source then PathToVideoIsIncorrectError
                      else CameraIndexIsIncorrect)))
  /\ (cap_isOpened cap w1 = true ->
       forall d,
         (drawing_points_video fuel source rescale window_name
            mdc mtc pc pt pr cc ct cr st).1 <> Raise (Domain d)).
Proof.
  intros Hcap. rewrite (drawing_points_video_run _ _ _ _ _ _ _ Hcap). simpl.
  split; intros Ho; rewrite Ho; [done|]. intros d. unfold forget_locals. simpl.
  destruct (frame_loop _ _ _ _ _ _ _ _ _ _ _ _).1 as [v|e] eqn:Hl; [done|].
  simpl. intros [= ->]. by eapply frame_loop_not_domain.
Qed.

(** C9.  Once the capture is opened, [drawing_points_video]
    - is the frame loop, whose course does not depend on the values the
      local variables were left with by the previous frame;
    - on every successful read puts that frame through the same step
      ([frame_step] with the parameters of the call) and goes on with
      nothing carried over;
    - when the capture delivers [frames] and then a failed read, returns
      after exactly [length frames + 1] reads, the last one being the
      failed one (any fuel above [length frames] shows it);
    - issues no [cap.release()]: every I/O call it makes is the
      [VideoCapture] construction, an [isOpened] or a [read]. *)
Theorem drawing_points_video_loop (source : pyobj) (rescale : Z)
    (window_name : string) st cap w1 :
  cv2_VideoCapture source (st_world st) = (inr cap, w1) ->
  cap_isOpened cap w1 = true ->
  let st1 := mk_state w1 (st_log st ++ [EvVideoCapture source; EvIsOpened cap]) in
  (forall fuel vars,
     drawing_points_video fuel source rescale window_name
       mdc mtc pc pt pr cc ct cr st = forget_locals (loop fuel cap vars st1))
  /\ (forall fuel vars st2 frame w2,
        cap_isOpened cap (st_world st2) = true ->
        cap_read cap (st_world st2) = ((true, frame), w2) ->
        forget_locals (loop (S fuel) cap vars st2) =
          let st3 := mk_state w2 (st_log st2 ++ [EvIsOpened cap; EvRead cap]) in
          match step frame with
          | Return _ => forget_locals (loop fuel cap unbound st3)
          | Raise e => (Raise e, st3)
          end)
  /\ (forall frames w',
        delivers cap mdc mtc pc pt pr cc ct cr w1 frames w' ->
        forall fuel, (length frames < fuel)%nat ->
          drawing_points_video fuel source rescale window_name
            mdc mtc pc pt pr cc ct cr st =
            (Return (Some tt),
             mk_state w' (st_log st1 ++ loop_calls cap (length frames))))
  /\ (forall fuel,
        exists evs,
          st_log (drawing_points_video fuel source rescale window_name
                    mdc mtc pc pt pr cc ct cr st).2 = st_log st ++ evs
          /\ never_released evs).
Proof.
  intros Hcap Ho st1.
  assert (Hrun : forall fuel vars,
    drawing_points_video fuel source rescale window_name
      mdc mtc pc pt pr cc ct cr st = forget_locals (loop fuel cap vars st1)).
  { intros fuel vars. rewrite (drawing_points_video_run _ _ _ _ _ _ _ Hcap). simpl.
    rewrite Ho. apply frame_loop_locals_irrelevant. }
  split; [exact Hrun|]. split; [|split].
  - intros fuel vars st2 frame w2. apply frame_loop_next_frame.
  - intros frames w' Hd fuel Hfuel. rewrite (Hrun fuel unbound).
    by apply frame_loop_delivers.
  - intros fuel. rewrite (Hrun fuel unbound). unfold forget_locals. simpl.
    destruct (frame_loop_log fuel cap unbound st1) as (evs & -> & Hevs).
    exists ([EvVideoCapture source; EvIsOpened cap] ++ evs). subst st1. simpl.
    split; [by rewrite <- app_assoc|].
    unfold never_released. do 2 (constructor; [intros c; discriminate|]).
    eapply Forall_impl; [exact Hevs|]. intros ev [-> | ->] c; discriminate.
Qed.

End Video.

(** ** Python numbers: [int(n / 100)] is the floor quotient

    For [0 <= n < 2^53] the float [n / 100] is close enough to the exact
    quotient for its truncation to be [n // 100].  The proof follows the
    float division step by step: the quotient mantissa has 53 or 54
    bits, is rounded to nearest-even, renormalised, and the integer part
    of the result is read off. *)

(** The bit length brackets the number. *)
Lemma digits2_pos_bounds p :
  2 ^ (Zpos (digits2_pos p) - 1) <= Zpos p < 2 ^ Zpos (digits2_pos p).
Proof.
  induction p as [p IH|p IH|]; simpl digits2_pos.
  - rewrite Pos2Z.inj_succ.
    replace (Z.succ (Zpos (digits2_pos p)) - 1) with (Z.succ (Zpos (digits2_pos p) - 1)) by lia.
    rewrite !Z.pow_succ_r by lia. lia.
  - rewrite Pos2Z.inj_succ.
    replace (Z.succ (Zpos (digits2_pos p)) - 1) with (Z.succ (Zpos (digits2_pos p) - 1)) by lia.
    rewrite !Z.pow_succ_r by lia. lia.
  - simpl. lia.
Qed.

Lemma Zdigits2_bounds x :
  0 < x -> 0 < Zdigits2 x /\ 2 ^ (Zdigits2 x - 1) <= x < 2 ^ Zdigits2 x.
Proof.
  destruct x as [|p|p]; try lia. intros _. simpl. split; [lia|]. apply digits2_pos_bounds.
Qed.

(** ... and is the only exponent that does. *)
Lemma Zdigits2_unique x d :
  0 < d -> 2 ^ (d - 1) <= x < 2 ^ d -> Zdigits2 x = d.
Proof.
  intros Hd [Hlo Hhi].
  assert (0 < x) by (pose proof (Z.pow_pos_nonneg 2 (d - 1)); lia).
  destruct (Zdigits2_bounds x H) as (Hpos & Hl & Hh).
  assert (d - 1 < Zdigits2 x) by (apply (Z.pow_lt_mono_r_iff 2); lia).
  assert (Zdigits2 x - 1 < d) by (apply (Z.pow_lt_mono_r_iff 2); lia).
  lia.
Qed.

(** One right shift of a positive mantissa: halve, keep the bit that
    fell off as the round bit, fold the old round bit into the sticky bit. *)
Lemma shr_1_pos m r s :
  0 < m -> shr_1 (Build_shr_record m r s) = Build_shr_record (m / 2) (Z.odd m) (r || s).
Proof.
  intros Hm. destruct m as [|p|p]; try lia.
  destruct p as [p|p|]; simpl shr_1; f_equal; try reflexivity.
  - rewrite Pos2Z.inj_xI. apply Z.div_unique with 1; lia.
  - rewrite Pos2Z.inj_xO. apply Z.div_unique with 0; lia.
Qed.

Lemma Zdigits2_53 x : 2 ^ 52 <= x < 2 ^ 53 -> Zdigits2 x = 53.
Proof. intros H. apply Zdigits2_unique; [lia|]. exact H. Qed.

Lemma Zdigits2_54 x : 2 ^ 53 <= x < 2 ^ 54 -> Zdigits2 x = 54.
Proof. intros H. apply Zdigits2_unique; [lia|]. exact H. Qed.

Lemma loc_of_shr_record_of_loc m l :
  loc_of_shr_record (shr_record_of_loc m l) = l.
Proof. by destruct l as [|[]]. Qed.

Lemma shr_m_of_loc m l : shr_m (shr_record_of_loc m l) = m.
Proof. by destruct l as [|[]]. Qed.

(** Rounding to nearest-even keeps the mantissa or adds one. *)
Lemma round_nearest_even_cases m l :
  round_nearest_even m l = m \/ round_nearest_even m l = m + 1.
Proof. destruct l as [|[]]; simpl; auto. destruct (Z.even m); auto. Qed.

(** The second normalisation step of [binary_round_aux]: a mantissa in
    [[2^52, 2^53]] stays, or (for [2^53]) is shifted once, exactly. *)
Lemma renormalise m e :
  2 ^ 52 <= m <= 2 ^ 53 -> -60 <= e <= -5 ->
  exists m' e',
    shr_fexp PyNum.prec PyNum.emax m e loc_Exact = (Build_shr_record m' false false, e') /\
    0 < m' /\ e' < 0 /\ e <= e' /\ m' * 2 ^ (e' - e) = m.
Proof.
  intros Hm He. unfold shr_fexp, fexp, emin, PyNum.prec, PyNum.emax.
  destruct (Z.eq_dec m (2 ^ 53)) as [->|Hne].
  - rewrite (Zdigits2_54 (2 ^ 53)) by lia.
    replace (Z.max (54 + e - 53) (3 - 1024 - 53) - e) with 1 by lia.
    simpl shr_record_of_loc. unfold shr. simpl iter_pos.
    exists (2 ^ 52), (e + 1). split; [reflexivity|].
    replace (e + 1 - e) with 1 by lia. repeat split; try lia; reflexivity.
  - rewrite (Zdigits2_53 m) by lia.
    replace (Z.max (53 + e - 53) (3 - 1024 - 53) - e) with 0 by lia.
    simpl. exists m, e. rewrite Z.sub_diag. split; [by destruct m|]. lia.
Qed.

(** The integer part does not depend on the exponent a value is
    written at. *)
Lemma div_rescale m' e' m e :
  e <= e' -> e' < 0 -> m' * 2 ^ (e' - e) = m -> m' / 2 ^ (- e') = m / 2 ^ (- e).
Proof.
  intros H1 H2 <-.
  replace (- e) with ((e' - e) + (- e')) by lia.
  rewrite Z.pow_add_r by lia.
  assert (0 < 2 ^ (e' - e)) by (apply Z.pow_pos_nonneg; lia).
  assert (0 < 2 ^ (- e')) by (apply Z.pow_pos_nonneg; lia).
  rewrite (Z.mul_comm m'). rewrite Z.div_mul_cancel_l by lia. done.
Qed.

(** The last step of [binary_round_aux]: a positive mantissa at a
    negative exponent is a finite float. *)
Lemma finish_round m e m' e' :
  shr_fexp PyNum.prec PyNum.emax m e loc_Exact = (Build_shr_record m' false false, e') ->
  0 < m' -> e' < 0 ->
  exists p,
    (let '(mrs'', e'') := shr_fexp PyNum.prec PyNum.emax m e loc_Exact in
     match shr_m mrs'' with
     | Z0 => S754_zero false
     | Zpos m => if Z.leb e'' (Z.sub PyNum.emax PyNum.prec)
                 then S754_finite false m e'' else S754_infinity false
     | _ => S754_nan
     end) = S754_finite false p e' /\ Zpos p = m'.
Proof.
  intros -> Hm He. simpl. destruct m' as [|p|p]; try lia.
  exists p. split; [|done].
  destruct (e' <=? PyNum.emax - PyNum.prec) eqn:Hle; [done|].
  unfold PyNum.emax, PyNum.prec in Hle. lia.
Qed.

(** Rounding a 53- or 54-bit quotient [q] at exponent [e]: the result
    is finite and its integer part is that of [q] or of [q + 1] at [e]. *)
Lemma binary_round_aux_trunc q e loc :
  2 ^ 52 <= q < 2 ^ 54 -> -59 <= e <= -7 ->
  exists p e2,
    binary_round_aux PyNum.prec PyNum.emax false q e loc = S754_finite false p e2
    /\ e2 < 0
    /\ (Zpos p / 2 ^ (- e2) = q / 2 ^ (- e) \/ Zpos p / 2 ^ (- e2) = (q + 1) / 2 ^ (- e)).
Proof.
  intros Hq He. unfold binary_round_aux.
  destruct (Z_lt_ge_dec q (2 ^ 53)) as [Hlt|Hge].
  - (* 53 digits: no shift *)
    assert (Hs : shr_fexp PyNum.prec PyNum.emax q e loc = (shr_record_of_loc q loc, e)).
    { unfold shr_fexp, fexp, emin, PyNum.prec, PyNum.emax.
      rewrite (Zdigits2_53 q) by lia.
      replace (Z.max (53 + e - 53) (3 - 1024 - 53) - e) with 0 by lia. done. }
    rewrite Hs, shr_m_of_loc, loc_of_shr_record_of_loc.
    set (m1 := round_nearest_even q loc).
    assert (Hm1 : m1 = q \/ m1 = q + 1) by apply round_nearest_even_cases.
    destruct (renormalise m1 e) as (m' & e' & Hr & Hm' & He' & Hee & Hv); [lia..|].
    destruct (finish_round m1 e m' e' Hr Hm' He') as (p & -> & Hp).
    exists p, e'. split; [done|]. split; [done|]. rewrite Hp.
    rewrite (div_rescale m' e' m1 e) by done.
    destruct Hm1 as [-> | ->]; auto.
  - (* 54 digits: one shift *)
    assert (Hs : shr_fexp PyNum.prec PyNum.emax q e loc =
                 (shr_1 (shr_record_of_loc q loc), e + 1)).
    { unfold shr_fexp, fexp, emin, PyNum.prec, PyNum.emax.
      rewrite (Zdigits2_54 q) by lia.
      replace (Z.max (54 + e - 53) (3 - 1024 - 53) - e) with 1 by lia. done. }
    rewrite Hs.
    assert (Hrec : exists r s, shr_record_of_loc q loc = Build_shr_record q r s)
      by (destruct loc as [|[]]; simpl; eauto).
    destruct Hrec as (r & s & ->). rewrite shr_1_pos by lia. simpl shr_m.
    set (l1 := loc_of_shr_record _). set (m1 := round_nearest_even (q / 2) l1).
    assert (Hm1 : m1 = q / 2 \/ (Z.odd q = true /\ m1 = q / 2 + 1)).
    { subst m1 l1. simpl. destruct (Z.odd q); destruct (r || s); simpl; auto.
      destruct (Z.even (q / 2)); auto. }
    assert (Hq2 : 2 ^ 52 <= q / 2 < 2 ^ 53).
    { split; [apply Z.div_le_lower_bound | apply Z.div_lt_upper_bound]; lia. }
    destruct (renormalise m1 (e + 1)) as (m' & e' & Hr & Hm' & He' & Hee & Hv); [lia..|].
    destruct (finish_round m1 (e + 1) m' e' Hr Hm' He') as (p & -> & Hp).
    exists p, e'. split; [done|]. split; [done|]. rewrite Hp.
    rewrite (div_rescale m' e' m1 (e + 1)) by done.
    replace (- e) with (1 + (- (e + 1))) by lia.
    rewrite Z.pow_add_r by lia. change (2 ^ 1) with 2.
    assert (0 < 2 ^ (- (e + 1))) by (apply Z.pow_pos_nonneg; lia).
    rewrite <- !Z.div_div by lia.
    destruct Hm1 as [-> | [Hodd ->]]; [by left|right].
    f_equal. apply Z.odd_spec in Hodd. destruct Hodd as [k ->].
    rewrite <- (Z.div_unique (2 * k + 1) 2 k 1) by lia.
    by rewrite <- (Z.div_unique (2 * k + 1 + 1) 2 (k + 1) 0) by lia.
Qed.

(** [q] is [n * P / 100] for a power of two [P >= 128]: scaling back,
    neither [q] nor [q + 1] reaches the next multiple of [P]. *)
Lemma scaled_quotient n P q r :
  0 <= n -> 128 <= P -> n * P = 100 * q + r -> 0 <= r < 100 ->
  q / P = n / 100 /\ (q + 1) / P = n / 100.
Proof.
  intros Hn HP Heq Hr.
  pose proof (Z.div_mod n 100 ltac:(lia)) as Hdm.
  pose proof (Z.mod_pos_bound n 100 ltac:(lia)) as Hm.
  set (k := n / 100) in *. set (r0 := n mod 100) in *.
  assert (Hlo : k * P <= q) by nia.
  assert (Hhi : q + 2 <= (k + 1) * P) by nia.
  split; symmetry.
  - apply (Z.div_unique q P k (q - k * P)); lia.
  - apply (Z.div_unique (q + 1) P k (q + 1 - k * P)); lia.
Qed.

(** [int(n / 100) = n // 100] for [0 <= n < 2^53]. *)
Lemma int_truediv_100 n :
  0 <= n < 2 ^ 53 -> PyNum.int_truediv n 100 = Return (n / 100).
Proof.
  intros [Hn Hlt]. unfold PyNum.int_truediv, PyNum.truediv.
  change (100 =? 0) with false. cbv iota.
  destruct (Z.eqb_spec n 0) as [->|Hn0]; [done|].
  rewrite (Z.abs_eq n) by lia. change (Z.abs 100) with 100.
  replace (n <? 0) with false by (symmetry; apply Z.ltb_ge; lia).
  change (xorb false (100 <? 0)) with false.
  destruct (Zdigits2_bounds n ltac:(lia)) as (Hd & Hdl & Hdh).
  set (d := Zdigits2 n) in *.
  assert (Hd53 : d <= 53).
  { assert (d - 1 < 53) by (apply (Z.pow_lt_mono_r_iff 2); lia). lia. }
  unfold SFdiv_core_binary. fold d. change (Zdigits2 100) with 7.
  unfold fexp, emin, PyNum.prec, PyNum.emax.
  replace (Z.min (Z.max (d + 0 - (7 + 0) - 53) (3 - 1024 - 53)) (0 - 0)) with (d - 60) by lia.
  replace (0 - 0 - (d - 60)) with (60 - d) by lia.
  destruct (60 - d) as [|s|s] eqn:Hs; try lia.
  rewrite <- Hs. clear s Hs.
  rewrite Z.shiftl_mul_pow2 by lia.
  assert (HP : 2 ^ 7 <= 2 ^ (60 - d)) by (apply Z.pow_le_mono_r; lia).
  assert (Hscale : 2 ^ 59 <= n * 2 ^ (60 - d) < 2 ^ 60).
  { assert (H59 : 2 ^ 59 = 2 ^ (d - 1) * 2 ^ (60 - d))
      by (rewrite <- Z.pow_add_r by lia; f_equal; lia).
    assert (H60 : 2 ^ 60 = 2 ^ d * 2 ^ (60 - d))
      by (rewrite <- Z.pow_add_r by lia; f_equal; lia).
    rewrite H59, H60. split.
    - apply Z.mul_le_mono_nonneg_r; lia.
    - apply Z.mul_lt_mono_pos_r; lia. }
  pose proof (Z_div_mod (n * 2 ^ (60 - d)) 100 ltac:(lia)) as Hde.
  destruct (Z.div_eucl (n * 2 ^ (60 - d)) 100) as [q r]. destruct Hde as [Hde Hr].
  assert (Hq : 2 ^ 52 <= q < 2 ^ 54) by lia.
  destruct (binary_round_aux_trunc q (d - 60) (new_location 100 r) Hq ltac:(lia))
    as (p & e2 & Hround & He2 & Hval).
  unfold PyNum.prec, PyNum.emax in Hround. rewrite Hround. simpl.
  replace (0 <=? e2) with false by (symmetry; apply Z.leb_gt; lia).
  rewrite Z.shiftr_div_pow2 by lia. f_equal.
  replace (- (d - 60)) with (60 - d) in Hval by lia.
  destruct (scaled_quotient n (2 ^ (60 - d)) q r) as [H1 H2]; [lia..|].
  destruct Hval as [-> | ->]; done.
Qed.

(** ** [rescale_img]: the size of the result *)

Section Rescale.
Context {world : Type} {E : Externals world} {C : LibContract E}.
Implicit Types (st : state world) (source : pyobj) (img : ndarray).

Lemma scaled_dim_shape img i (d : nat) f :
  shape img !! i = Some d ->
  scaled_dim img i f = PyNum.int_truediv (Z.of_nat d * f) 100.
Proof. intros Hd. unfold scaled_dim, shape_at. by rewrite Hd. Qed.

(** How [rescale_img] runs for a positive factor once the source is
    open: the resize is asked for [(width, height)] as computed. *)
Lemma rescale_img_run source img st st1 (h w : nat) rest f H W :
  0 < f ->
  open_img source st = (Return img, st1) ->
  shape img = h :: w :: rest ->
  PyNum.int_truediv (Z.of_nat h * f) 100 = Return H ->
  PyNum.int_truediv (Z.of_nat w * f) 100 = Return W ->
  rescale_img source f st = (from_lib (cv2_resize img (W, H) INTER_AREA), st1).
Proof.
  intros Hf Ho Hsh HH HW. unfold rescale_img.
  destruct (f <=? 0) eqn:Hle; [lia|].
  unfold bind. rewrite Ho. unfold lift.
  rewrite (scaled_dim_shape img 1 w), (scaled_dim_shape img 0 h) by (by rewrite Hsh).
  by rewrite HW, HH.
Qed.

(** A target size with an empty side is refused: the error of
    [cv2.resize] comes out of [rescale_img]. *)
Lemma rescale_img_empty_target source img st st1 (h w : nat) rest f H W :
  0 < f ->
  open_img source st = (Return img, st1) ->
  shape img = h :: w :: rest ->
  PyNum.int_truediv (Z.of_nat h * f) 100 = Return H ->
  PyNum.int_truediv (Z.of_nat w * f) 100 = Return W ->
  W <= 0 \/ H <= 0 ->
  rescale_img source f st = (Raise (External Cv2Error), st1).
Proof.
  intros Hf Ho Hsh HH HW Hempty.
  rewrite (rescale_img_run _ _ _ _ _ _ _ _ _ _ Hf Ho Hsh HH HW).
  by rewrite resize_rejects_empty_dsize.
Qed.

(** C1, amended.  For an image of height [h] and width [w] and a factor
    [f > 0], with [H = int(h * f / 100)] and [W = int(w * f / 100)]:
    whenever [cv2.resize] accepts the target size [(W, H)], [rescale_img]
    returns what it returns, an image of height [H] and width [W], both
    positive.  [H] and [W] are the floor quotients [h * f // 100] and
    [w * f // 100] (as long as the products stay below [2^53]); at
    factor 50 they are [h // 2] and [w // 2]. *)
Theorem rescale_img_dims source img st st1 (h w : nat) rest f H W r :
  0 < f ->
  open_img source st = (Return img, st1) ->
  shape img = h :: w :: rest ->
  PyNum.int_truediv (Z.of_nat h * f) 100 = Return H ->
  PyNum.int_truediv (Z.of_nat w * f) 100 = Return W ->
  cv2_resize img (W, H) INTER_AREA = inr r ->
  rescale_img source f st = (Return r, st1)
  /\ take 2 (shape r) = [Z.to_nat H; Z.to_nat W]
  /\ 0 < H /\ 0 < W
  /\ (Z.of_nat h * f < 2 ^ 53 -> H = Z.of_nat h * f / 100)
  /\ (Z.of_nat w * f < 2 ^ 53 -> W = Z.of_nat w * f / 100)
  /\ (f = 50 -> Z.of_nat h < 2 ^ 47 -> Z.of_nat w < 2 ^ 47 ->
      H = Z.of_nat h / 2 /\ W = Z.of_nat w / 2).
Proof.
  intros Hf Ho Hsh HH HW Hr.
  assert (Hfloor : forall (d : nat) D,
            PyNum.int_truediv (Z.of_nat d * f) 100 = Return D ->
            Z.of_nat d * f < 2 ^ 53 -> D = Z.of_nat d * f / 100).
  { intros d D HD Hb. rewrite int_truediv_100 in HD by lia. by injection HD. }
  assert (Hhalf : forall d : nat, Z.of_nat d * 50 / 100 = Z.of_nat d / 2).
  { intros d. change 100 with (2 * 50). by rewrite Z.div_mul_cancel_r. }
  split; [|split; [|split; [|split; [|split; [|split]]]]].
  - rewrite (rescale_img_run _ _ _ _ _ _ _ _ _ _ Hf Ho Hsh HH HW). by rewrite Hr.
  - by eapply resize_result_shape.
  - destruct (Z_lt_le_dec 0 H) as [|Hle]; [done|].
    rewrite resize_rejects_empty_dsize in Hr by auto. discriminate.
  - destruct (Z_lt_le_dec 0 W) as [|Hle]; [done|].
    rewrite resize_rejects_empty_dsize in Hr by auto. discriminate.
  - by apply Hfloor.
  - by apply Hfloor.
  - intros -> Hh Hw. rewrite <- !Hhalf. split; apply Hfloor; try done; lia.
Qed.

End Rescale.

(** In the reference world the resize takes every non-empty target size,
    so there [rescale_img] returns for every array with a height and a
    width as soon as both scaled sides are at least 1. *)
Lemma ref_rescale_img_returns (img : ndarray) (h w : nat) rest f st :
  shape img = h :: w :: rest ->
  0 < f ->
  100 <= Z.of_nat h * f < 2 ^ 53 ->
  100 <= Z.of_nat w * f < 2 ^ 53 ->
  exists r,
    rescale_img (PyArray img) f st = (Return r, st)
    /\ shape r = Z.to_nat (Z.of_nat h * f / 100) :: Z.to_nat (Z.of_nat w * f / 100) :: rest.
Proof.
  intros Hsh Hf Hh Hw.
  assert (HH : 1 <= Z.of_nat h * f / 100) by (apply Z.div_le_lower_bound; lia).
  assert (HW : 1 <= Z.of_nat w * f / 100) by (apply Z.div_le_lower_bound; lia).
  rewrite (rescale_img_run (PyArray img) img st st h w rest f
             (Z.of_nat h * f / 100) (Z.of_nat w * f / 100) Hf eq_refl Hsh)
    by (apply int_truediv_100; lia).
  simpl. unfold Ref.resize. rewrite Hsh.
  destruct (Z.of_nat w * f / 100 <=? 0) eqn:E1; [lia|].
  destruct (Z.of_nat h * f / 100 <=? 0) eqn:E2; [lia|]. simpl.
  destruct (h =? 0)%nat eqn:E3; [apply Nat.eqb_eq in E3; lia|].
  destruct (w =? 0)%nat eqn:E4; [apply Nat.eqb_eq in E4; lia|]. simpl.
  eexists. split; reflexivity.
Qed.

(** ** Runs in the reference world *)

Section Runs.
Import Ref.

Local Abbreviation points := (mk_DrawingSpec default_points_color default_thickness default_radius).
Local Abbreviation lines := (mk_DrawingSpec default_connect_color default_thickness default_radius).

(** C1 as stated fails on a 1 x 1 image: [int(1 * 50 / 100)] is 0 for
    both sides, [cv2.resize] refuses the empty target size, and
    [rescale_img] raises instead of returning a 0 x 0 image. *)
Lemma rescale_img_one_pixel :
  is_image gray11
  /\ shape gray11 = [1; 1]%nat
  /\ PyNum.int_truediv (1 * 50) 100 = Return 0
  /\ rescale_img (PyArray gray11) 50 (start empty_world) =
       (Raise (External Cv2Error), start empty_world).
Proof. repeat split; try reflexivity. by left. Qed.

Lemma rescale_img_dims_witness :
  rescale_img (PyStr "photo.png") 50 (start studio) =
    (Return (mk_ndarray [1; 1]%nat [1]), log_event (EvImread "photo.png") (start studio))
  /\ take 2 (shape (mk_ndarray [1; 1]%nat [1])) = [Z.to_nat 1; Z.to_nat 1]
  /\ 0 < 1 /\ 0 < 1
  /\ (Z.of_nat 2 * 50 < 2 ^ 53 -> 1 = Z.of_nat 2 * 50 / 100)
  /\ (Z.of_nat 3 * 50 < 2 ^ 53 -> 1 = Z.of_nat 3 * 50 / 100)
  /\ (50 = 50 -> Z.of_nat 2 < 2 ^ 47 -> Z.of_nat 3 < 2 ^ 47 ->
      1 = Z.of_nat 2 / 2 /\ 1 = Z.of_nat 3 / 2).
Proof.
  apply (rescale_img_dims (C := ref_contract) (PyStr "photo.png") gray23
           (start studio) _ 2 3 [] 50 1 1); [lia | reflexivity..].
Defined.

Lemma img_mirror_twice_witness :
  exists mirrored,
    img_mirror (PyArray gray23) None (start empty_world) =
      (Return mirrored, start empty_world)
    /\ img_mirror (PyArray mirrored) None (start empty_world) =
         (Return gray23, start empty_world).
Proof.
  apply (img_mirror_twice gray23 (start empty_world)).
  split; [reflexivity | left; reflexivity].
Defined.

Lemma detect_and_draw_landmarks_each_present_witness :
  detect_and_draw_landmarks (bgr 3) default_confidence default_confidence
    default_points_color default_thickness default_radius
    default_connect_color default_thickness default_radius =
  overlay_each_present (bgr 3) (mk_results (Some [centre]) (Some [centre]) None)
    points lines
  /\ (pose_landmarks (mk_results (Some [centre]) (Some [centre]) None) = None ->
      left_hand_landmarks (mk_results (Some [centre]) (Some [centre]) None) = None ->
      right_hand_landmarks (mk_results (Some [centre]) (Some [centre]) None) = None ->
      detect_and_draw_landmarks (bgr 3) default_confidence default_confidence
        default_points_color default_thickness default_radius
        default_connect_color default_thickness default_radius = Return (bgr 3)).
Proof.
  apply (detect_and_draw_landmarks_each_present
           (C := ref_contract) (D := ref_detector_contract)
           default_confidence default_confidence
           default_points_color default_thickness default_radius
           default_connect_color default_thickness default_radius
           (bgr 3) (mk_results (Some [centre]) (Some [centre]) None)).
  reflexivity.
Defined.

Lemma rescale_img_nonpositive_witness :
  rescale_img (PyStr "nowhere.png") 0 (start studio) =
    (Raise (ValueError "Rescale factor must be positive integer."), start studio).
Proof. apply (rescale_img_nonpositive (PyStr "nowhere.png") 0 (start studio)). lia. Defined.

Lemma drawing_points_video_errors_witness :
  (cap_isOpened 0%nat (mk_world (files studio) (videos studio) (cameras studio) [None])
     = false ->
   (drawing_points_video 5 (PyInt 0) default_rescale ""
      default_confidence default_confidence
      default_points_color default_thickness default_radius
      default_connect_color default_thickness default_radius (start studio)).1 =
     Raise (Domain CameraIndexIsIncorrect))
  /\ (cap_isOpened 0%nat (mk_world (files studio) (videos studio) (cameras studio) [None])
        = true ->
      forall d,
        (drawing_points_video 5 (PyInt 0) default_rescale ""
           default_confidence default_confidence
           default_points_color default_thickness default_radius
           default_connect_color default_thickness default_radius (start studio)).1 <>
          Raise (Domain d)).
Proof.
  apply (drawing_points_video_errors
           default_confidence default_confidence
           default_points_color default_thickness default_radius
           default_connect_color default_thickness default_radius
           5 (PyInt 0) default_rescale "" (start studio) 0%nat
           (mk_world (files studio) (videos studio) (cameras studio) [None])).
  reflexivity.
Defined.

(** C8 as stated fails on a destination no writer takes: [img_mirror]
    issues the [cv2.imwrite] call, the call raises, and no mirrored
    image is returned.  And when the call returns with its flag down, as
    for a path into a directory that is not there, [img_mirror] returns
    the mirrored image although no file was written. *)
Lemma img_mirror_no_writer :
  is_image gray23
  /\ img_mirror (PyArray gray23) (Some "mirror_noext") (start empty_world) =
       (Raise (External Cv2Error),
        mk_state empty_world
          [EvImwrite "mirror_noext" (mk_ndarray [2; 3]%nat [3; 2; 1; 6; 5; 4])])
  /\ img_mirror (PyArray gray23) (Some "missing/mirror.png") (start empty_world) =
       (Return (mk_ndarray [2; 3]%nat [3; 2; 1; 6; 5; 4]),
        mk_state empty_world
          [EvImwrite "missing/mirror.png" (mk_ndarray [2; 3]%nat [3; 2; 1; 6; 5; 4])])
  /\ files empty_world !! "missing/mirror.png" = None.
Proof. repeat split; try reflexivity. by left. Qed.

Lemma img_mirror_write_witness :
  exists mirrored,
    np_flip gray23 1 = Return mirrored
    /\ (forall p, p <> ""%string ->
          img_mirror (PyStr "photo.png") (Some p) (start studio) =
            (match (cv2_imwrite p mirrored (st_world (start studio))).1 with
             | inr _ => Return mirrored
             | inl e => Raise (External e)
             end,
             mk_state (cv2_imwrite p mirrored (st_world (start studio))).2
               (st_log (log_event (EvImread "photo.png") (start studio))
                  ++ [EvImwrite p mirrored])))
    /\ img_mirror (PyStr "photo.png") None (start studio) =
         (Return mirrored, log_event (EvImread "photo.png") (start studio))
    /\ st_world (log_event (EvImread "photo.png") (start studio)) = st_world (start studio)
    /\ (exists reads,
          st_log (log_event (EvImread "photo.png") (start studio)) =
            st_log (start studio) ++ reads /\ only_reads reads).
Proof.
  apply (img_mirror_write (PyStr "photo.png") gray23 (start studio)
           (log_event (EvImread "photo.png") (start studio))).
  - reflexivity.
  - split; [reflexivity | left; reflexivity].
Defined.

Lemma drawing_points_video_loop_witness :
  drawing_points_video 4 (PyStr "clip.mp4") default_rescale ""
    default_confidence default_confidence
    default_points_color default_thickness default_radius
    default_connect_color default_thickness default_radius (start studio) =
  (Return (Some tt),
   mk_state (studio_playing 3)
     ([EvVideoCapture (PyStr "clip.mp4"); EvIsOpened 0%nat] ++ loop_calls 0%nat 3)).
Proof.
  destruct (drawing_points_video_loop
              default_confidence default_confidence
              default_points_color default_thickness default_radius
              default_connect_color default_thickness default_radius
              (PyStr "clip.mp4") default_rescale "" (start studio) 0%nat
              (studio_playing 0)) as (_ & _ & Hend & _); [reflexivity..|].
  apply (Hend clip (studio_playing 3)); [|simpl; lia].
  eapply (delivers_frame _ _ _ _ _ _ _ _ _ _ (studio_playing 1)); try reflexivity.
  eapply (delivers_frame _ _ _ _ _ _ _ _ _ _ (studio_playing 2)); try reflexivity.
  eapply (delivers_frame _ _ _ _ _ _ _ _ _ _ (studio_playing 3)); try reflexivity.
  eapply delivers_end; reflexivity.
Defined.

End Runs.

(** * Further properties of the helpers *)

(** ** Python numbers: [n / 2] is exact *)

(** For [0 <= n < 2^53] the float [n / 2] is the exact half of [n]: the
    scaled dividend is even, so nothing is rounded away. *)
Lemma truediv_2 n :
  0 <= n < 2 ^ 53 -> exists x, PyNum.truediv n 2 = Return x /\ is_half_of x n.
Proof.
  intros [Hn Hlt]. unfold PyNum.truediv.
  change (2 =? 0) with false. cbv iota.
  destruct (Z.eqb_spec n 0) as [->|Hn0]; [by eexists|].
  rewrite (Z.abs_eq n) by lia. change (Z.abs 2) with 2.
  replace (n <? 0) with false by (symmetry; apply Z.ltb_ge; lia).
  change (xorb false (2 <? 0)) with false.
  destruct (Zdigits2_bounds n ltac:(lia)) as (Hd & Hdl & Hdh).
  set (d := Zdigits2 n) in *.
  assert (Hd53 : d <= 53).
  { assert (d - 1 < 53) by (apply (Z.pow_lt_mono_r_iff 2); lia). lia. }
  unfold SFdiv_core_binary. fold d. change (Zdigits2 2) with 2.
  unfold fexp, emin, PyNum.prec, PyNum.emax.
  replace (Z.min (Z.max (d + 0 - (2 + 0) - 53) (3 - 1024 - 53)) (0 - 0)) with (d - 55) by lia.
  replace (0 - 0 - (d - 55)) with (55 - d) by lia.
  destruct (55 - d) as [|s|s] eqn:Hs; try lia.
  rewrite <- Hs. clear s Hs.
  rewrite Z.shiftl_mul_pow2 by lia.
  (* the scaled dividend is even: the division by 2 is exact *)
  set (q := n * 2 ^ (54 - d)).
  assert (Hm : n * 2 ^ (55 - d) = 2 * q).
  { subst q. replace (55 - d) with (1 + (54 - d)) by lia.
    rewrite Z.pow_add_r by lia. change (2 ^ 1) with 2. ring. }
  rewrite Hm.
  assert (Hdiv : Z.div_eucl (2 * q) 2 = (q, 0)).
  { pose proof (Z_div_mod (2 * q) 2 ltac:(lia)) as Hde.
    destruct (Z.div_eucl (2 * q) 2) as [q' r']. destruct Hde as [Hde Hr].
    f_equal; lia. }
  rewrite Hdiv. change (new_location 2 0) with loc_Exact.
  assert (Hq : 2 ^ 53 <= q < 2 ^ 54).
  { subst q.
    assert (H53 : 2 ^ 53 = 2 ^ (d - 1) * 2 ^ (54 - d))
      by (rewrite <- Z.pow_add_r by lia; f_equal; lia).
    assert (H54 : 2 ^ 54 = 2 ^ d * 2 ^ (54 - d))
      by (rewrite <- Z.pow_add_r by lia; f_equal; lia).
    assert (0 < 2 ^ (54 - d)) by (apply Z.pow_pos_nonneg; lia).
    rewrite H53, H54. split.
    - apply Z.mul_le_mono_nonneg_r; lia.
    - apply Z.mul_lt_mono_pos_r; lia. }
  set (h := n * 2 ^ (53 - d)).
  assert (Hqh : q = 2 * h).
  { subst q h. replace (54 - d) with (1 + (53 - d)) by lia.
    rewrite Z.pow_add_r by lia. change (2 ^ 1) with 2. ring. }
  unfold binary_round_aux.
  assert (Hs1 : shr_fexp 53 1024 q (d - 55) loc_Exact =
                (Build_shr_record h false false, d - 54)).
  { unfold shr_fexp, fexp, emin. rewrite (Zdigits2_54 q) by lia.
    replace (Z.max (54 + (d - 55) - 53) (3 - 1024 - 53) - (d - 55)) with 1 by lia.
    simpl shr_record_of_loc. unfold shr. simpl iter_pos.
    rewrite shr_1_pos by lia. f_equal; [|lia]. rewrite Hqh.
    rewrite Z.odd_mul. simpl. f_equal.
    rewrite Z.mul_comm. by rewrite Z.div_mul. }
  rewrite Hs1. simpl shr_m. simpl loc_of_shr_record. simpl round_nearest_even.
  assert (Hh : 2 ^ 52 <= h < 2 ^ 53) by lia.
  assert (Hr : shr_fexp PyNum.prec PyNum.emax h (d - 54) loc_Exact =
               (Build_shr_record h false false, d - 54)).
  { unfold shr_fexp, fexp, emin, PyNum.prec, PyNum.emax. rewrite (Zdigits2_53 h) by lia.
    replace (Z.max (53 + (d - 54) - 53) (3 - 1024 - 53) - (d - 54)) with 0 by lia. done. }
  destruct (finish_round h (d - 54) h (d - 54) Hr ltac:(lia) ltac:(lia)) as (p & Hfin & Hp).
  unfold PyNum.prec, PyNum.emax in Hfin. rewrite Hfin.
  eexists. split; [reflexivity|]. simpl. rewrite Hp.
  rewrite (Z.max_r (d - 54) 0) by lia. rewrite (Z.max_l (- (d - 54)) 0) by lia. change (2 ^ 0) with 1.
  replace (- (d - 54)) with (1 + (53 - d)) by lia.
  rewrite Z.pow_add_r by lia. change (2 ^ 1) with 2.
  fold h. lia.
Qed.

(** ** Looking up an entry in blocks *)

Section Blocks.
Context {A : Type}.
Implicit Types (l : list A) (ls : list (list A)).

(** Block [i] is the [n] elements from position [i * n] on. *)
Lemma lookup_chunks n k l i :
  (i < k)%nat -> chunks n k l !! i = Some (take n (drop (i * n) l)).
Proof.
  revert l i. induction k as [|k IH]; intros l i Hi; [lia|].
  destruct i as [|i]; simpl; [done|].
  rewrite IH by lia. by rewrite drop_drop.
Qed.

(** Element [j] of block [i], read in the concatenation. *)
Lemma lookup_concat_blocks n ls i j :
  Forall (fun c => length c = n) ls -> (j < n)%nat ->
  concat ls !! (i * n + j)%nat = ls !! i ≫= (fun c => c !! j).
Proof.
  intros Hls Hj. revert i. induction Hls as [|c ls Hc _ IH]; intros i; [done|].
  destruct i as [|i]; simpl.
  - rewrite lookup_app_l by lia. done.
  - rewrite lookup_app_r by lia. rewrite <- IH. f_equal. lia.
Qed.
End Blocks.

(** Flipping along axis 1 moves the pixel of column [w - 1 - c] to
    column [c], within the same row. *)
Lemma flip_data_entry (h w : nat) rest (l : list Z) (r c k : nat) :
  length l = size_of (h :: w :: rest) ->
  (r < h)%nat -> (c < w)%nat -> (k < size_of rest)%nat ->
  flip_data (h :: w :: rest) 1 l !! ((r * w + c) * size_of rest + k)%nat =
    l !! ((r * w + (w - 1 - c)) * size_of rest + k)%nat.
Proof.
  intros Hl Hr Hc Hk. rewrite !size_of_cons in Hl.
  set (inner := size_of rest) in *. set (rowsz := (w * inner)%nat).
  change (flip_data (h :: w :: rest) 1 l)
    with (concat (map (flip_data (w :: rest) 0) (chunks (size_of (w :: rest)) h l))).
  rewrite size_of_cons. fold inner rowsz.
  pose proof (chunks_block_length rowsz h l Hl) as Hrows.
  replace ((r * w + c) * inner + k)%nat with (r * rowsz + (c * inner + k))%nat
    by (subst rowsz; lia).
  assert (Hin : (c * inner + k < rowsz)%nat) by (subst rowsz; nia).
  rewrite (lookup_concat_blocks rowsz).
  2:{ apply Forall_fmap. eapply Forall_impl; [exact Hrows|].
      intros row Hrow. unfold compose. cbv beta.
      rewrite (length_flip_data (w :: rest)); [exact Hrow|].
      by rewrite size_of_cons. }
  2:{ done. }
  rewrite list_lookup_fmap, lookup_chunks by done. simpl.
  set (row := take rowsz (drop (r * rowsz) l)).
  assert (Hrow : length row = (w * inner)%nat).
  { subst row. rewrite length_take, length_drop. subst rowsz. nia. }
  pose proof (chunks_block_length inner w row Hrow) as Hpx.
  change (flip_data (w :: rest) 0 row) with (concat (reverse (chunks inner w row))).
  rewrite (lookup_concat_blocks inner); [|by apply Forall_reverse|done].
  rewrite reverse_lookup by (rewrite length_chunks; lia).
  rewrite length_chunks.
  replace (w - S c)%nat with (w - 1 - c)%nat by lia.
  assert (Hx : (w - 1 - c < w)%nat) by lia.
  generalize dependent (w - 1 - c)%nat. intros x Hx.
  rewrite lookup_chunks by lia. simpl.
  rewrite lookup_take, decide_True by done. rewrite lookup_drop.
  subst row. rewrite lookup_take, decide_True by (subst rowsz inner; nia).
  rewrite lookup_drop.
  match goal with |- l !! ?a = l !! ?b => replace a with b; [done|] end.
  subst rowsz inner. lia.
Qed.

(** ** What the image helpers do to the outside world *)

Section Footprint.
Context {world : Type} {E : Externals world}.
Implicit Types (st : state world) (source : pyobj) (img : ndarray).

Lemma only_read_since_refl st : only_read_since st st.
Proof.
  split; [done|]. exists []. rewrite app_nil_r. repeat split; [constructor | simpl; lia].
Qed.

Lemma open_img_only_reads source st :
  only_read_since st (open_img source st).2.
Proof.
  destruct (open_img source st) as [o st'] eqn:Ho.
  destruct (open_img_effect _ _ _ _ Ho) as [->|(path & _ & ->)]; simpl.
  - apply only_read_since_refl.
  - split; [done|]. exists [EvImread path]. repeat split; [|simpl; lia].
    repeat constructor. eauto.
Qed.

(** Everything [rescale_img] does to the state, [open_img] does. *)
Lemma rescale_img_state source f st :
  (rescale_img source f st).2 = st \/ (rescale_img source f st).2 = (open_img source st).2.
Proof.
  unfold rescale_img. destruct (f <=? 0); [by left|]. right.
  unfold bind, lift. destruct (open_img source st) as [[img|e] st1]; [|done]. simpl.
  destruct (scaled_dim img 1 f); [|done].
  by destruct (scaled_dim img 0 f).
Qed.

(** X1.  [open_img] never changes the world.  For a string it issues
    exactly one I/O call, the [cv2.imread] of that path, whether the
    decoding works or not; for anything else it issues none. *)
Theorem open_img_footprint source st :
  st_world (open_img source st).2 = st_world st
  /\ (forall path, source = PyStr path ->
        st_log (open_img source st).2 = st_log st ++ [EvImread path])
  /\ (is_str source = false -> (open_img source st).2 = st).
Proof.
  split; [|split].
  - eapply open_img_world. apply surjective_pairing.
  - intros path ->. simpl. unfold bind, imread.
    by destruct (cv2_imread path (st_world st)).
  - intros Hs. by destruct source.
Qed.

(** X8.  [rescale_img] writes nothing and touches no capture, whatever
    it is given and whether it returns or raises: the world stays as it
    was and the only I/O is at most one [cv2.imread]. *)
Theorem rescale_img_footprint source (rescale_factor : Z) st :
  only_read_since st (rescale_img source rescale_factor st).2.
Proof.
  destruct (rescale_img_state source rescale_factor st) as [-> | ->].
  - apply only_read_since_refl.
  - apply open_img_only_reads.
Qed.

(** X10.  An empty string as destination is no destination: for
    [None] and for [""] alike [img_mirror] issues no write call, the
    world stays as it was, the only I/O is at most one [cv2.imread], and
    the two runs are the same. *)
Theorem img_mirror_quiet source (destination_path : option string) st :
  destination_path = None \/ destination_path = Some ""%string ->
  only_read_since st (img_mirror source destination_path st).2
  /\ img_mirror source destination_path st = img_mirror source None st.
Proof.
  intros Hq.
  assert (Hsame : img_mirror source destination_path st = img_mirror source None st).
  { destruct Hq as [-> | ->]; [done|].
    unfold img_mirror, bind. destruct (open_img source st) as [[img|e] st1]; [|done].
    unfold lift. by destruct (np_flip img 1). }
  split; [|exact Hsame]. rewrite Hsame.
  pose proof (open_img_only_reads source st) as Ho.
  unfold img_mirror, bind, lift.
  destruct (open_img source st) as [[img|e] st1]; [|done]. simpl in *.
  by destruct (np_flip img 1).
Qed.

(** X13.  [drawing_points_img] writes nothing and touches no capture:
    the world stays as it was and the only I/O is at most one
    [cv2.imread] (the source is opened once; the rescaling is given the
    array, not the path). *)
Theorem drawing_points_img_footprint source (rescale : Z) (window_name : string)
    (mdc mtc : PyNum.float) (pc : list Z) (pt pr : number)
    (cc : list Z) (ct cr : number) (wait_key : Z) (destroy_window : bool) st :
  only_read_since st
    (drawing_points_img source rescale window_name mdc mtc pc pt pr cc ct cr
       wait_key destroy_window st).2.
Proof.
  pose proof (open_img_only_reads source st) as Ho.
  unfold drawing_points_img, bind at 1.
  destruct (open_img source st) as [[img|e] st1]; [|done]. simpl in Ho.
  unfold bind at 1.
  pose proof (rescale_img_state (PyArray img) rescale st1) as Hr. simpl in Hr.
  destruct (rescale_img (PyArray img) rescale st1) as [[img'|e] st2]; simpl in Hr.
  - assert (st2 = st1) as -> by (by destruct Hr).
    unfold bind, lift.
    by destruct (from_lib (cv2_cvtColor (Some img') COLOR_BGR2RGB)).
  - assert (st2 = st1) as -> by (by destruct Hr). done.
Qed.

End Footprint.

(** ** Sizes, centres and pixels *)

Section Geometry.
Context {world : Type} {E : Externals world}.
Implicit Types (st : state world) (source : pyobj) (img : ndarray).

(** X3.  For an image of height [h] and width [w] (both below [2^53])
    [center_of_img] returns the pair [(x, y)] with [x] exactly [w / 2]
    and [y] exactly [h / 2]: the horizontal coordinate comes first and
    nothing is lost to rounding. *)
Theorem center_of_img_exact source img st st1 (h w : nat) rest :
  open_img source st = (Return img, st1) ->
  shape img = h :: w :: rest ->
  Z.of_nat h < 2 ^ 53 ->
  Z.of_nat w < 2 ^ 53 ->
  exists x y,
    center_of_img source st = (Return (x, y), st1)
    /\ is_half_of x (Z.of_nat w)
    /\ is_half_of y (Z.of_nat h).
Proof.
  intros Ho Hsh Hh Hw.
  destruct (truediv_2 (Z.of_nat w)) as (x & Hx & Hxw); [lia|].
  destruct (truediv_2 (Z.of_nat h)) as (y & Hy & Hyh); [lia|].
  exists x, y. split; [|done].
  unfold center_of_img, bind. rewrite Ho, Hsh. simpl. unfold lift.
  by rewrite Hx, Hy.
Qed.

(** X4.  An array with fewer than two axes is turned away by each
    helper in its own way: [center_of_img] raises [ValueError] (the
    unpacking of [shape[:2]]), [rescale_img] with a positive factor
    raises [IndexError] (from [shape[1]]), [img_mirror] raises numpy's
    [AxisError]; in every case after the source was opened and before
    anything else happened. *)
Theorem few_axes_rejected source img st st1 :
  open_img source st = (Return img, st1) ->
  (ndim img < 2)%nat ->
  center_of_img source st =
    (Raise (ValueError (if decide (ndim img = 1%nat)
                        then "not enough values to unpack (expected 2, got 1)"
                        else "not enough values to unpack (expected 2, got 0)")), st1)
  /\ (forall f, 0 < f ->
        rescale_img source f st = (Raise (IndexError "tuple index out of range"), st1))
  /\ (forall destination_path,
        img_mirror source destination_path st = (Raise (External AxisError), st1)).
Proof.
  intros Ho Hn. unfold ndim in *. split; [|split].
  - unfold center_of_img, bind. rewrite Ho.
    destruct (shape img) as [|d [|d' rest]]; simpl in *; [done..|lia].
  - intros f Hf. unfold rescale_img, bind.
    destruct (f <=? 0) eqn:Hle; [lia|]. rewrite Ho. unfold lift, scaled_dim, shape_at.
    destruct (shape img) as [|d [|d' rest]]; simpl in *; [done..|lia].
  - intros destination_path. unfold img_mirror, bind. rewrite Ho.
    unfold lift, np_flip, ndim. case_decide; [lia|done].
Qed.

(** X6.  With a factor that is a multiple of 100, [rescale_img] asks
    [cv2.resize] for exactly that multiple of the original width and
    height; with the default factor 100 it asks for the original size. *)
Theorem rescale_img_whole_multiple source img st st1 (h w : nat) rest (k : Z) :
  open_img source st = (Return img, st1) ->
  shape img = h :: w :: rest ->
  0 < k ->
  Z.of_nat h * (100 * k) < 2 ^ 53 ->
  Z.of_nat w * (100 * k) < 2 ^ 53 ->
  rescale_img source (100 * k) st =
    (from_lib (cv2_resize img (Z.of_nat w * k, Z.of_nat h * k) INTER_AREA), st1).
Proof.
  intros Ho Hsh Hk Hh Hw.
  assert (Hq : forall d : nat, Z.of_nat d * (100 * k) / 100 = Z.of_nat d * k).
  { intros d. replace (Z.of_nat d * (100 * k)) with (Z.of_nat d * k * 100) by ring.
    by rewrite Z.div_mul. }
  apply (rescale_img_run source img st st1 h w rest); [lia|done..| |].
  - rewrite int_truediv_100 by lia. by rewrite Hq.
  - rewrite int_truediv_100 by lia. by rewrite Hq.
Qed.

(** X7.  [rescale_img] cannot shrink an image below one pixel: when
    [h * f < 100] or [w * f < 100] the target size has an empty side,
    [cv2.resize] refuses it and [rescale_img] raises [cv2.error]. *)
Theorem rescale_img_too_small {C : LibContract E}
    source img st st1 (h w : nat) rest f :
  open_img source st = (Return img, st1) ->
  shape img = h :: w :: rest ->
  0 < f ->
  Z.of_nat h * f < 2 ^ 53 ->
  Z.of_nat w * f < 2 ^ 53 ->
  Z.of_nat h * f < 100 \/ Z.of_nat w * f < 100 ->
  rescale_img source f st = (Raise (External Cv2Error), st1).
Proof.
  intros Ho Hsh Hf Hh Hw Hsmall.
  apply (rescale_img_empty_target source img st st1 h w rest f
           (Z.of_nat h * f / 100) (Z.of_nat w * f / 100));
    [done..| | |].
  - apply int_truediv_100. lia.
  - apply int_truediv_100. lia.
  - destruct Hsmall as [Hs|Hs]; [right|left]; rewrite Z.div_small; lia.
Qed.

(** X9.  Whenever [img_mirror] returns, the image it returns has the
    shape of the source, and its pixel in row [r], column [c] is the
    source pixel in row [r], column [w - 1 - c], channel by channel:
    columns are reversed, rows and channels stay.  Without a
    destination path it does return. *)
Theorem img_mirror_pixels source img st st1 destination_path (h w : nat) rest mirrored :
  open_img source st = (Return img, st1) ->
  ndarray_wf img ->
  shape img = h :: w :: rest ->
  (img_mirror source destination_path st).1 = Return mirrored ->
  shape mirrored = shape img
  /\ ndarray_wf mirrored
  /\ (forall r c k, (r < h)%nat -> (c < w)%nat -> (k < size_of rest)%nat ->
        entry mirrored r c k = entry img r (w - 1 - c) k)
  /\ (img_mirror source None st).1 = Return mirrored.
Proof.
  intros Ho Hwf Hsh Hm.
  assert (Hax : (1 < ndim img)%nat) by (unfold ndim; rewrite Hsh; simpl; lia).
  pose proof (np_flip_returns img 1 Hax) as Hf.
  rewrite (img_mirror_run source destination_path st img st1 _ Ho Hf) in Hm.
  assert (Heq : mirrored = {| shape := shape img;
                              data := flip_data (shape img) 1 (data img) |}).
  { destruct destination_path as [p|]; simpl in Hm; [|congruence].
    destruct (negb (String.eqb p "")); simpl in Hm; [|congruence].
    destruct (cv2_imwrite p _ (st_world st1)).1; congruence. }
  subst mirrored. split; [done|]. split; [|split].
  - eapply np_flip_wf; [exact Hwf | exact Hf].
  - intros r c k Hr Hc Hk. unfold entry. simpl. rewrite Hsh.
    apply flip_data_entry; [|done..]. unfold ndarray_wf in Hwf. by rewrite Hwf, Hsh.
  - by rewrite (img_mirror_run source None st img st1 _ Ho Hf).
Qed.

(** X2.  An error from opening the source ([ImageNotExistsError],
    [PathToImageIsIncorrectError], [TypeError]) comes out unchanged of
    [center_of_img], of [rescale_img] with a positive factor and of
    [img_mirror], and nothing is done after it: no resize, no flip, no
    write. *)
Theorem open_error_propagates source st e st1 :
  open_img source st = (Raise e, st1) ->
  center_of_img source st = (Raise e, st1)
  /\ (forall f, 0 < f -> rescale_img source f st = (Raise e, st1))
  /\ (forall destination_path, img_mirror source destination_path st = (Raise e, st1)).
Proof.
  intros Ho. split; [|split].
  - unfold center_of_img, bind. by rewrite Ho.
  - intros f Hf. unfold rescale_img, bind. destruct (f <=? 0) eqn:Hle; [lia|].
    by rewrite Ho.
  - intros destination_path. unfold img_mirror, bind. by rewrite Ho.
Qed.

End Geometry.

(** ** [drawing_points_img] *)

Section DrawingPointsImg.
Context {world : Type} {E : Externals world}.
Variables (mdc mtc : PyNum.float) (pc : list Z) (pt pr : number)
          (cc : list Z) (ct cr : number).
Implicit Types (st : state world) (source : pyobj) (img : ndarray).

(** X11.  [drawing_points_img] looks at the source before it looks at
    the factor: an error from opening the source comes out whatever
    [rescale] is, and a factor [<= 0] is reported with [ValueError] only
    once the source has been opened (and, for a path, read). *)
Theorem drawing_points_img_source_first source (rescale : Z) (window_name : string)
    (wait_key : Z) (destroy_window : bool) st o st1 :
  open_img source st = (o, st1) ->
  match o with
  | Raise e =>
      drawing_points_img source rescale window_name mdc mtc pc pt pr cc ct cr
        wait_key destroy_window st = (Raise e, st1)
  | Return img =>
      rescale <= 0 ->
      drawing_points_img source rescale window_name mdc mtc pc pt pr cc ct cr
        wait_key destroy_window st =
        (Raise (ValueError "Rescale factor must be positive integer."), st1)
  end.
Proof.
  intros Ho. destruct o as [img|e].
  - intros Hle. unfold drawing_points_img, bind at 1. rewrite Ho.
    unfold bind at 1, rescale_img.
    destruct (rescale <=? 0) eqn:Hr; [done|]. lia.
  - unfold drawing_points_img, bind at 1. by rewrite Ho.
Qed.

(** X12.  When the detector finds no pose, [drawing_points_img] returns
    the rescaled image after its conversion to RGB, nothing drawn on
    it: the result is in RGB channel order, not in the BGR order of the
    source. *)
Theorem drawing_points_img_no_pose source (rescale : Z) (window_name : string)
    (wait_key : Z) (destroy_window : bool) st img st1 resized st2 img_rgb res :
  open_img source st = (Return img, st1) ->
  rescale_img (PyArray img) rescale st1 = (Return resized, st2) ->
  cv2_cvtColor (Some resized) COLOR_BGR2RGB = inr img_rgb ->
  holistic_process mdc mtc img_rgb = inr res ->
  pose_landmarks res = None ->
  drawing_points_img source rescale window_name mdc mtc pc pt pr cc ct cr
    wait_key destroy_window st = (Return img_rgb, st1).
Proof.
  intros Ho Hr Hc Hp Hpose.
  assert (st2 = st1) as ->.
  { pose proof (rescale_img_state (PyArray img) rescale st1) as Hs.
    rewrite Hr in Hs. simpl in Hs. by destruct Hs. }
  unfold drawing_points_img, bind at 1. rewrite Ho.
  unfold bind at 1. rewrite Hr. unfold bind, lift. rewrite Hc. simpl.
  unfold detect_and_draw_landmarks. rewrite Hp. simpl. by rewrite Hpose.
Qed.

End DrawingPointsImg.

(** ** More about [drawing_points_video] *)

Section VideoErrors.
Context {world : Type} {E : Externals world}.
Variables (mdc mtc : PyNum.float) (pc : list Z) (pt pr : number)
          (cc : list Z) (ct cr : number).
Implicit Types (st : state world) (cap : capture) (vars : locals) (fuel : nat).

Local Abbreviation loop fuel cap := (frame_loop fuel cap mdc mtc pc pt pr cc ct cr).
Local Abbreviation step := (frame_step mdc mtc pc pt pr cc ct cr).
Local Abbreviation video fuel source rescale window_name :=
  (drawing_points_video fuel source rescale window_name mdc mtc pc pt pr cc ct cr).

(** The per-frame step only raises what a library raised. *)
Lemma frame_step_raises_external frame e :
  step frame = Raise e -> exists le, e = External le.
Proof.
  unfold frame_step.
  destruct (cv2_cvtColor frame COLOR_BGR2RGB) as [le|img_rgb]; simpl;
    [intros [= <-]; eauto|].
  unfold detect_and_draw_landmarks.
  destruct (holistic_process mdc mtc img_rgb) as [le|res]; simpl; [intros [= <-]; eauto|].
  destruct (pose_landmarks res); [|done].
  destruct (draw_landmarks img_rgb _ _ _ _) as [le|img1]; simpl; [intros [= <-]; eauto|].
  destruct (draw_landmarks img1 _ _ _ _) as [le|img2]; simpl; [intros [= <-]; eauto|].
  destruct (draw_landmarks img2 _ _ _ _) as [le|img3]; simpl; [intros [= <-]; eauto|done].
Qed.

(** One iteration of the loop, in terms of the per-frame step. *)
Lemma frame_loop_step fuel cap vars st :
  forget_locals (loop (S fuel) cap vars st) =
    let st1 := log_event (EvIsOpened cap) st in
    if cap_isOpened cap (st_world st) then
      let '((success, frame), w2) := cap_read cap (st_world st) in
      let st2 := mk_state w2 (st_log st1 ++ [EvRead cap]) in
      if success then
        match step frame with
        | Return _ => forget_locals (loop fuel cap unbound st2)
        | Raise e => (Raise e, st2)
        end
      else (Return (Some tt), st2)
    else (Return (Some tt), st1).
Proof.
  rewrite frame_loop_iteration. simpl.
  destruct (cap_isOpened cap (st_world st)); [|done].
  destruct (cap_read cap (st_world st)) as [[[] frame] w2]; [|done].
  unfold frame_step.
  destruct (from_lib (cv2_cvtColor frame COLOR_BGR2RGB)) as [img_rgb|e]; [|done]. simpl.
  destruct (detect_and_draw_landmarks img_rgb mdc mtc pc pt pr cc ct cr); [|done].
  apply frame_loop_locals_irrelevant.
Qed.

Lemma frame_loop_raises_external fuel cap vars st e :
  (forget_locals (loop fuel cap vars st)).1 = Raise e -> exists le, e = External le.
Proof.
  revert vars st. induction fuel as [|fuel IH]; intros vars st; [done|].
  rewrite frame_loop_step. simpl.
  destruct (cap_isOpened cap (st_world st)); [|done].
  destruct (cap_read cap (st_world st)) as [[[] frame] w2]; [|done].
  destruct (step frame) as [img'|e'] eqn:Hs.
  - apply IH.
  - simpl. intros [= <-]. by eapply frame_step_raises_external.
Qed.

(** [drawing_points_video], step by step. *)
Lemma drawing_points_video_unfold fuel (source : pyobj) (rescale : Z)
    (window_name : string) st :
  video fuel source rescale window_name st =
    let '(r, w1) := cv2_VideoCapture source (st_world st) in
    let st0 := mk_state w1 (st_log st ++ [EvVideoCapture source]) in
    match r with
    | inl le => (Raise (External le), st0)
    | inr cap =>
        let st1 := log_event (EvIsOpened cap) st0 in
        if cap_isOpened cap w1
        then forget_locals (loop fuel cap unbound st1)
        else (Raise (Domain (if is_str source then PathToVideoIsIncorrectError
                             else CameraIndexIsIncorrect)), st1)
    end.
Proof.
  unfold drawing_points_video, bind at 1, VideoCapture.
  destruct (cv2_VideoCapture source (st_world st)) as [[le|cap] w1]; simpl; [done|].
  unfold bind at 1, isOpened. simpl.
  destruct (cap_isOpened cap w1); simpl.
  - unfold bind, forget_locals.
    destruct (frame_loop _ _ _ _ _ _ _ _ _ _ _ _) as [[v|e] st']; done.
  - by destruct (is_str source).
Qed.

(** X14.  [rescale] and [window_name] have no effect on
    [drawing_points_video], and whatever it raises is
    [PathToVideoIsIncorrectError] (only for a string source),
    [CameraIndexIsIncorrect] (only for a source that is not a string) or
    an exception of one of the libraries; in particular a [rescale <= 0]
    is not reported. *)
Theorem drawing_points_video_exceptions fuel (source : pyobj) (rescale : Z)
    (window_name : string) st :
  (forall rescale' window_name',
     video fuel source rescale' window_name' st = video fuel source rescale window_name st)
  /\ (forall e, (video fuel source rescale window_name st).1 = Raise e ->
        (e = Domain PathToVideoIsIncorrectError /\ is_str source = true)
        \/ (e = Domain CameraIndexIsIncorrect /\ is_str source = false)
        \/ exists le, e = External le).
Proof.
  split; [done|]. intros e. rewrite drawing_points_video_unfold.
  destruct (cv2_VideoCapture source (st_world st)) as [[le|cap] w1]; simpl.
  - intros [= <-]. eauto.
  - destruct (cap_isOpened cap w1).
    + intros He. right. right. by eapply frame_loop_raises_external.
    + simpl. destruct (is_str source); intros [= <-]; auto.
Qed.

(** The loop ends with the error of the first frame whose processing
    raises. *)
Lemma frame_loop_breaks cap w n e w' :
  breaks_after cap mdc mtc pc pt pr cc ct cr w n e w' ->
  forall fuel vars log, (n < fuel)%nat ->
    forget_locals (loop fuel cap vars (mk_state w log)) =
      (Raise e, mk_state w' (log ++ loop_calls cap n)).
Proof.
  induction 1 as [w w' frame e Ho Hr Hs | w w1 w' frame img' n e Ho Hr Hs _ IH];
    intros fuel vars log Hfuel; (destruct fuel as [|fuel]; [lia|]);
    rewrite frame_loop_step; simpl; rewrite Ho, Hr, Hs.
  - unfold loop_calls. simpl. by rewrite <- !app_assoc.
  - rewrite IH by lia. unfold loop_calls. simpl. by rewrite <- !app_assoc.
Qed.

(** X15.  When the processing of a frame raises (the colour conversion,
    the detector or the drawing), [drawing_points_video] raises that
    exception at once: after [n] good frames and the bad one it has made
    [n + 1] reads and makes no more. *)
Theorem drawing_points_video_frame_error (source : pyobj) (rescale : Z)
    (window_name : string) st cap w1 n e w' :
  cv2_VideoCapture source (st_world st) = (inr cap, w1) ->
  cap_isOpened cap w1 = true ->
  breaks_after cap mdc mtc pc pt pr cc ct cr w1 n e w' ->
  forall fuel, (n < fuel)%nat ->
    video fuel source rescale window_name st =
      (Raise e,
       mk_state w' (st_log st ++ [EvVideoCapture source; EvIsOpened cap]
                      ++ loop_calls cap n)).
Proof.
  intros Hcap Ho Hb fuel Hfuel. rewrite drawing_points_video_unfold, Hcap. simpl.
  rewrite Ho. unfold log_event. simpl.
  rewrite (frame_loop_breaks cap w1 n e w' Hb) by done.
  by rewrite <- !app_assoc.
Qed.



End VideoErrors.

(** ** Mirroring and the centre *)

Section MirrorCentre.
Context {world : Type} {E : Externals world}.
Implicit Types (st : state world) (source : pyobj) (img : ndarray).

(** X5.  Mirroring keeps the centre: [center_of_img] gives the same
    answer (value or error) on the image returned by [img_mirror] as on
    the image that was mirrored. *)
Theorem center_of_img_mirror source destination_path st img st1 mirrored st2 :
  open_img source st = (Return img, st1) ->
  (img_mirror source destination_path st).1 = Return mirrored ->
  center_of_img (PyArray mirrored) st2 = center_of_img (PyArray img) st2.
Proof.
  intros Ho Hm.
  assert (Hsh : shape mirrored = shape img).
  { unfold img_mirror, bind at 1 in Hm. rewrite Ho in Hm. unfold bind at 1, lift in Hm.
    destruct (np_flip img 1) as [m|e] eqn:Hf; [|done].
    assert (m = mirrored) as ->.
    { destruct destination_path as [p|]; simpl in Hm; [|congruence].
      destruct (negb (String.eqb p "")); simpl in Hm; [|congruence].
      unfold bind, imwrite in Hm.
      destruct (cv2_imwrite p m (st_world st1)) as [[e|ok] w']; simpl in Hm; congruence. }
    eapply np_flip_shape. exact Hf. }
  unfold center_of_img, bind. simpl. by rewrite Hsh.
Qed.

End MirrorCentre.

(** ** Further runs in the reference world *)

Section MoreRuns.
Import Ref.

Local Abbreviation video_defaults fuel source :=
  (drawing_points_video fuel source default_rescale ""
     default_confidence default_confidence
     default_points_color default_thickness default_radius
     default_connect_color default_thickness default_radius).

Local Abbreviation img_defaults source rescale :=
  (drawing_points_img source rescale ""
     default_confidence default_confidence
     default_points_color default_thickness default_radius
     default_connect_color default_thickness default_radius 0 true).

Lemma img_mirror_quiet_witness :
  only_read_since (start studio)
    (img_mirror (PyStr "photo.png") (Some "") (start studio)).2
  /\ img_mirror (PyStr "photo.png") (Some "") (start studio) =
       img_mirror (PyStr "photo.png") None (start studio).
Proof.
  apply (img_mirror_quiet (PyStr "photo.png") (Some "") (start studio)).
  right. reflexivity.
Defined.

Lemma center_of_img_exact_witness :
  exists x y,
    center_of_img (PyStr "photo.png") (start studio) =
      (Return (x, y), log_event (EvImread "photo.png") (start studio))
    /\ is_half_of x (Z.of_nat 3)
    /\ is_half_of y (Z.of_nat 2).
Proof.
  apply (center_of_img_exact (PyStr "photo.png") gray23 (start studio) _ 2 3 []);
    reflexivity.
Defined.

Lemma few_axes_rejected_witness :
  center_of_img (PyArray (mk_ndarray [6]%nat [1; 2; 3; 4; 5; 6])) (start studio) =
    (Raise (ValueError "not enough values to unpack (expected 2, got 1)"), start studio)
  /\ (forall f, 0 < f ->
        rescale_img (PyArray (mk_ndarray [6]%nat [1; 2; 3; 4; 5; 6])) f (start studio) =
          (Raise (IndexError "tuple index out of range"), start studio))
  /\ (forall destination_path,
        img_mirror (PyArray (mk_ndarray [6]%nat [1; 2; 3; 4; 5; 6])) destination_path
          (start studio) = (Raise (External AxisError), start studio)).
Proof.
  apply (few_axes_rejected (PyArray (mk_ndarray [6]%nat [1; 2; 3; 4; 5; 6]))
           (mk_ndarray [6]%nat [1; 2; 3; 4; 5; 6]) (start studio) (start studio)).
  - reflexivity.
  - unfold ndim. simpl. lia.
Defined.

Lemma rescale_img_whole_multiple_witness :
  rescale_img (PyArray gray23) (100 * 2) (start studio) =
    (from_lib (cv2_resize gray23 (Z.of_nat 3 * 2, Z.of_nat 2 * 2) INTER_AREA),
     start studio).
Proof.
  apply (rescale_img_whole_multiple (PyArray gray23) gray23 (start studio) (start studio)
           2 3 [] 2); reflexivity.
Defined.

Lemma rescale_img_too_small_witness :
  rescale_img (PyArray gray23) 40 (start studio) =
    (Raise (External Cv2Error), start studio).
Proof.
  apply (rescale_img_too_small (C := ref_contract) (PyArray gray23) gray23
           (start studio) (start studio) 2 3 [] 40); try reflexivity.
  left. reflexivity.
Defined.

Lemma img_mirror_pixels_witness :
  shape (mk_ndarray [2; 2; 3]%nat [40; 50; 60; 1; 20; 30; 100; 110; 120; 70; 80; 90]) =
    shape (bgr 1)
  /\ ndarray_wf
       (mk_ndarray [2; 2; 3]%nat [40; 50; 60; 1; 20; 30; 100; 110; 120; 70; 80; 90])
  /\ (forall r c k, (r < 2)%nat -> (c < 2)%nat -> (k < size_of [3%nat])%nat ->
        entry (mk_ndarray [2; 2; 3]%nat [40; 50; 60; 1; 20; 30; 100; 110; 120; 70; 80; 90])
          r c k = entry (bgr 1) r (2 - 1 - c) k)
  /\ (img_mirror (PyArray (bgr 1)) None (start studio)).1 =
       Return (mk_ndarray [2; 2; 3]%nat [40; 50; 60; 1; 20; 30; 100; 110; 120; 70; 80; 90]).
Proof.
  apply (img_mirror_pixels (PyArray (bgr 1)) (bgr 1) (start studio) (start studio)
           (Some "out.png") 2 2 [3%nat]); reflexivity.
Defined.

Lemma drawing_points_img_source_first_witness :
  img_defaults (PyStr "nowhere.png") 0 (start studio) =
    (Raise (Domain PathToImageIsIncorrectError),
     log_event (EvImread "nowhere.png") (start studio)).
Proof.
  apply (drawing_points_img_source_first
           default_confidence default_confidence
           default_points_color default_thickness default_radius
           default_connect_color default_thickness default_radius
           (PyStr "nowhere.png") 0 "" 0 true (start studio)
           (Raise (Domain PathToImageIsIncorrectError))
           (log_event (EvImread "nowhere.png") (start studio))).
  reflexivity.
Defined.

Lemma drawing_points_img_no_pose_witness :
  img_defaults (PyStr "photo.png") 100 (start workshop) =
    (Return (mk_ndarray [2; 2; 3]%nat [30; 20; 4; 60; 50; 40; 90; 80; 70; 120; 110; 100]),
     log_event (EvImread "photo.png") (start workshop)).
Proof.
  apply (drawing_points_img_no_pose
           default_confidence default_confidence
           default_points_color default_thickness default_radius
           default_connect_color default_thickness default_radius
           (PyStr "photo.png") 100 "" 0 true (start workshop) (bgr 4)
           (log_event (EvImread "photo.png") (start workshop)) (bgr 4)
           (log_event (EvImread "photo.png") (start workshop))
           (mk_ndarray [2; 2; 3]%nat [30; 20; 4; 60; 50; 40; 90; 80; 70; 120; 110; 100])
           (mk_results None None None));
    reflexivity.
Defined.

Lemma drawing_points_video_frame_error_witness :
  video_defaults 2 (PyStr "torn.mp4") (start workshop) =
    (Raise (External Cv2Error),
     mk_state (workshop_playing 2)
       (st_log (start workshop)
          ++ [EvVideoCapture (PyStr "torn.mp4"); EvIsOpened 0%nat] ++ loop_calls 0%nat 1)).
Proof.
  apply (drawing_points_video_frame_error
           default_confidence default_confidence
           default_points_color default_thickness default_radius
           default_connect_color default_thickness default_radius
           (PyStr "torn.mp4") default_rescale "" (start workshop) 0%nat
           (workshop_playing 0) 1 (External Cv2Error) (workshop_playing 2));
    [reflexivity | reflexivity | | lia].
  eapply (breaks_later _ _ _ _ _ _ _ _ _ _ (workshop_playing 1)); try reflexivity.
  eapply breaks_now; reflexivity.
Defined.

Lemma center_of_img_mirror_witness :
  center_of_img (PyArray (mk_ndarray [2; 3]%nat [3; 2; 1; 6; 5; 4])) (start empty_world) =
    center_of_img (PyArray gray23) (start empty_world).
Proof.
  apply (center_of_img_mirror (PyStr "photo.png") (Some "out.png") (start studio) gray23
           (log_event (EvImread "photo.png") (start studio))
           (mk_ndarray [2; 3]%nat [3; 2; 1; 6; 5; 4]) (start empty_world));
    reflexivity.
Defined.

Lemma open_error_propagates_witness :
  center_of_img PyNone (start studio) = (Raise (Domain ImageNotExistsError), start studio)
  /\ (forall f, 0 < f ->
        rescale_img PyNone f (start studio) =
          (Raise (Domain ImageNotExistsError), start studio))
  /\ (forall destination_path,
        img_mirror PyNone destination_path (start studio) =
          (Raise (Domain ImageNotExistsError), start studio)).
Proof.
  apply (open_error_propagates PyNone (start studio) (Domain ImageNotExistsError)
           (start studio)).
  reflexivity.
Defined.


End MoreRuns.
